(** * open_logprobs: a shallow embedding of [openlogprobs/models.py]

    The module wraps a remote completion API.  Every call of the API client,
    every [print] and every [time.sleep] is recorded in a trace, the client
    is a function of the number of calls already made (so that a stub may
    fail twice and then answer), and Python exceptions are an explicit
    result.  Log-probabilities are binary64 floats, as in Python. *)

From Stdlib Require Import ZArith String Ascii List Floats Lia.
From stdpp Require Import gmap strings list fin_maps sorting pretty.

Set Warnings "-inexact-float".
Local Open Scope Z_scope.

(** ** Python exceptions and results *)

(** The exception classes the module can meet.  [OpenAIError] stands for the
    exception classes of the [openai] client (connection, authentication,
    bad request, ...); none of them derives from [IndexError]. *)
Inductive exn : Type :=
| IndexError
| KeyError
| TypeError
| AttributeError
| ValueError
| NotImplementedError (msg : string)
| OpenAIError (name : string).

(** [except IndexError:] catches exactly the instances of [IndexError]. *)
Definition isinstance_IndexError (e : exn) : bool :=
  match e with IndexError => true | _ => false end.

Inductive result (A : Type) : Type :=
| Return (a : A)
| Raise (e : exn).
Arguments Return {A} a.
Arguments Raise {A} e.

#[export] Instance result_ret : MRet result := fun A a => Return a.
#[export] Instance result_bind : MBind result := fun A B f r =>
  match r with Return a => f a | Raise e => Raise e end.
#[export] Instance result_fmap : FMap result := fun A B f r =>
  match r with Return a => Return (f a) | Raise e => Raise e end.

(** [l[0]] *)
Definition subscript0 {A} (l : list A) : result A :=
  match l with [] => Raise IndexError | x :: _ => Return x end.

(** [o.attr] for an object that may be [None] *)
Definition getattr {A} (o : option A) : result A :=
  match o with None => Raise AttributeError | Some a => Return a end.

(** [range(n)] *)
Definition range (n : Z) : list Z := seqZ 0 n.

(** ** The collaborators: requests, responses, tokenizer, client *)

(** [Dict[str, float]], the [logit_bias] of the public methods. *)
Abbreviation LogitBias := (gmap string float).
(** [Dict[int, float]], the result of [topk]. *)
Abbreviation LogProbMap := (gmap Z float).

(** Keyword arguments of [client.completions.create].  An optional keyword
    is [None] when the call does not pass it. *)
Record completions_kwargs : Type := CompletionsKwargs {
  c_model : string;
  c_prompt : string;
  c_temperature : Z;
  c_max_tokens : Z;
  c_logit_bias : option LogitBias;
  c_n : option Z;
  c_logprobs : option Z
}.

(** Keyword arguments of [client.chat.completions.create]; a message is a
    pair of its role and its content. *)
Record chat_kwargs : Type := ChatKwargs {
  h_model : string;
  h_messages : list (string * string);
  h_temperature : Z;
  h_max_tokens : Z;
  h_logit_bias : option LogitBias;
  h_n : option Z;
  h_logprobs : option bool;
  h_top_logprobs : option Z
}.

Inductive request : Type :=
| CompletionsCreate (kw : completions_kwargs)
| ChatCompletionsCreate (kw : chat_kwargs).

(** The [logit_bias] keyword a request carries, if any. *)
Definition request_logit_bias (r : request) : option LogitBias :=
  match r with
  | CompletionsCreate kw => c_logit_bias kw
  | ChatCompletionsCreate kw => h_logit_bias kw
  end.

(** Legacy completion response: [choices[i].text] and
    [choices[i].logprobs.top_logprobs], a list with one dict (text to
    log-probability, in the order the provider sent it) per position. *)
Record CompletionChoice : Type := {
  choice_text : string;
  choice_logprobs : option (list (list (string * float)))
}.
Record Completion : Type := { completion_choices : list CompletionChoice }.

(** Chat response: the [content] of [choices[i].message] and
    [choices[i].logprobs.content], a list with, per position, the list
    [top_logprobs] of entries with a [token] and a [logprob]. *)
Record TopLogprob : Type := { token : string; logprob : float }.
Record ChatChoice : Type := {
  message_content : string;
  chat_logprobs : option (list (list TopLogprob))
}.
Record ChatCompletion : Type := { chat_choices : list ChatChoice }.

(** [message["content"]]: the message of a chat choice is an object of the
    client library with the attribute [content]; it is not a dict, and
    subscripting it raises [TypeError]. *)
Definition message_getitem (choice : ChatChoice) (key : string) : result string :=
  Raise TypeError.

(** A [tiktoken] encoding: [encode(text, allowed_special=...)] and
    [n_vocab].  [encode] raises on text it refuses. *)
Record Encoding : Type := {
  n_vocab : Z;
  encode : list string -> string -> result (list Z)
}.

(** The API client.  The first argument is the number of API calls made
    before this one. *)
Record Client : Type := {
  completions_create : nat -> completions_kwargs -> result Completion;
  chat_completions_create : nat -> chat_kwargs -> result ChatCompletion
}.

(** ** Effects *)

Inductive event : Type :=
| ApiCall (r : request)
| Print (line : string)
| Sleep (seconds : Z).

Definition calls (t : list event) : list request :=
  omap (fun e => match e with ApiCall r => Some r | _ => None end) t.

Definition sleeps (t : list event) : list Z :=
  omap (fun e => match e with Sleep s => Some s | _ => None end) t.

(** A computation reads the trace so far and extends it. *)
Definition M (A : Type) : Type := list event -> result A * list event.

#[export] Instance M_ret : MRet M := fun A a t => (Return a, t).
#[export] Instance M_bind : MBind M := fun A B f m t =>
  match m t with
  | (Return a, t') => f a t'
  | (Raise e, t') => (Raise e, t')
  end.
#[export] Instance M_fmap : FMap M := fun A B f m t =>
  match m t with
  | (Return a, t') => (Return (f a), t')
  | (Raise e, t') => (Raise e, t')
  end.

Definition lift {A} (r : result A) : M A := fun t => (r, t).
Definition raise {A} (e : exn) : M A := fun t => (Raise e, t).
Definition emit (e : event) : M unit := fun t => (Return tt, t ++ [e]).
Definition print (line : string) : M unit := emit (Print line).
Definition time_sleep (seconds : Z) : M unit := emit (Sleep seconds).

(** [try: body except <caught>: handler] *)
Definition try_except {A} (body : M A) (caught : exn -> bool) (handler : M A) : M A :=
  fun t =>
    match body t with
    | (Raise e, t') => if caught e then handler t' else (Raise e, t')
    | r => r
    end.

(** [for x in xs: body], where [body] may execute a [return]: [Some a] says
    the function returned [a], [None] that the iteration ended normally.
    When the loop ends without a [return] the result is [None]. *)
Fixpoint for_return {X A} (xs : list X) (body : X -> M (option A)) : M (option A) :=
  match xs with
  | [] => mret None
  | x :: rest =>
      r ← body x;
      match r with
      | Some a => mret (Some a)
      | None => for_return rest body
      end
  end.

(** [[body for _ in xs]] *)
Fixpoint list_comp {X A} (xs : list X) (body : X -> M A) : M (list A) :=
  match xs with
  | [] => mret []
  | x :: rest => a ← body x; l ← list_comp rest body; mret (a :: l)
  end.

Definition call_completions (client : Client) (kw : completions_kwargs) : M Completion :=
  fun t => (completions_create client (length (calls t)) kw,
            t ++ [ApiCall (CompletionsCreate kw)]).

Definition call_chat (client : Client) (kw : chat_kwargs) : M ChatCompletion :=
  fun t => (chat_completions_create client (length (calls t)) kw,
            t ++ [ApiCall (ChatCompletionsCreate kw)]).

(** ** Pure helpers: comprehensions and [np.median] *)

(** [[body(x) for x in xs]] without effects *)
Fixpoint list_comp_pure {X A} (xs : list X) (body : X -> result A) : result (list A) :=
  match xs with
  | [] => Return []
  | x :: rest => a ← body x; l ← list_comp_pure rest body; Return (a :: l)
  end.

(** [{key(x): value(x) for x in xs}]: entries are inserted from left to
    right, so a later entry with the same key overwrites an earlier one. *)
Fixpoint dict_comp_from {X V} (entry : X -> result (Z * V)) (xs : list X)
    (acc : gmap Z V) : result (gmap Z V) :=
  match xs with
  | [] => Return acc
  | x :: rest => kv ← entry x; dict_comp_from entry rest (<[kv.1 := kv.2]> acc)
  end.

Definition dict_comp {X V} (entry : X -> result (Z * V)) (xs : list X) : result (gmap Z V) :=
  dict_comp_from entry xs ∅.

Section Sorting.
Context {A : Type} (le : A -> A -> bool).

Fixpoint insert_sorted (x : A) (l : list A) : list A :=
  match l with
  | [] => [x]
  | y :: rest => if le x y then x :: l else y :: insert_sorted x rest
  end.

Definition sort (l : list A) : list A := foldr insert_sorted [] l.
End Sorting.

(** [np.median(a)] of a one-dimensional [a]: NaN when [a] is empty or holds a
    NaN; otherwise [np.mean] of the middle slice of the sorted data, which
    has one value for an odd number of values and two for an even number.
    [np.mean] divides the sum of the slice by its length, and the sum is the
    first value plus the sum of the others accumulated from [0.0]: the mean
    of the one value [x] is [(x + 0.0) / 1], so that the median of [[-0.0]]
    is [0.0]. *)
Definition np_median (a : list float) : float :=
  if existsb PrimFloat.is_nan a then nan
  else
    let s := sort PrimFloat.leb a in
    let n := length a in
    match n with
    | O => nan
    | _ =>
        if Nat.odd n then ((nth (n / 2)%nat s nan + 0) / 1)%float
        else ((nth (n / 2 - 1)%nat s nan + (0 + nth (n / 2)%nat s nan)) / 2)%float
    end.

(** A call of [np.median] with the positional arguments [args]: [a] is a
    required positional parameter, so a call without it raises [TypeError]. *)
Definition np_median_call (args : list (list float)) : result float :=
  match args with
  | [a] => Return (np_median a)
  | _ => Raise TypeError
  end.

(** ** [class Model] *)

(** An argument with a default value: [None] when the caller leaves it out. *)
Definition bind_default {A} (default : A) (supplied : option A) : A :=
  match supplied with Some a => a | None => default end.

(** The default of every [logit_bias] parameter of the module: [{}].  The
    value of the parameter is a dict or Python's [None]. *)
Definition default_logit_bias : option LogitBias := Some ∅.

(** The abstract interface.  [topk] is annotated [Dict[int, float]]; a Python
    function can still return [None], hence the option. *)
Class Model (Self : Type) : Type := {
  vocab_size : Self -> Z;
  argmax : Self -> string -> option (option LogitBias) -> M Z;
  topk : Self -> string -> option (option LogitBias) -> M (option LogProbMap)
}.

(** [result.keys()] *)
Definition keys (d : option LogProbMap) : result (list Z) :=
  match d with
  | None => Raise AttributeError
  | Some m => Return ((map_to_list m).*1)
  end.

(** [result[word]] *)
Definition getitem (d : option LogProbMap) (word : Z) : result float :=
  match d with
  | None => Raise TypeError
  | Some m => match m !! word with Some v => Return v | None => Raise KeyError end
  end.

Section Aggregation.
Context {Self : Type} `{Model Self}.

Definition median_topk (self : Self) (k : Z) (prefix : string)
    (logit_bias : option (option LogitBias)) : M LogProbMap :=
  results ← list_comp (range k) (fun _ => topk self prefix logit_bias);
  lift (first ← subscript0 results;
        words ← keys first;
        dict_comp (fun word =>
                     column ← list_comp_pure results (fun r => getitem r word);
                     med ← np_median_call [column];
                     Return (word, med))
                  words).

Definition median_argmax (self : Self) (k : Z) (prefix : string)
    (logit_bias : option (option LogitBias)) : M float :=
  results ← list_comp (range k) (fun _ => argmax self prefix logit_bias);
  lift (np_median_call []).
End Aggregation.

(** ** [class OpenAIModel(Model)] *)

Record OpenAIModel : Type := {
  model : string;
  encoding : Encoding;
  client : Client;
  system : string;
  max_api_retries : Z
}.

(** [s.startswith(p)] *)
Definition startswith (s p : string) : bool := String.prefix p s.

(** [s in (a, b, ...)] *)
Definition in_tuple (s : string) (tuple : list string) : bool :=
  existsb (String.eqb s) tuple.

Definition legacy_models : list string :=
  ["gpt-3.5-turbo-instruct"; "babbage-002"; "davinci-002"]%string.

Definition special_tokens : list string := ["<|endoftext|>"; "<|im_start|>"]%string.

(** [enc.encode(text)[0]] *)
Definition first_token (enc : Encoding) (text : string) : result Z :=
  toks ← encode enc [] text; subscript0 toks.

Section OpenAI.
(** The imported names the class uses: [tiktoken.encoding_for_model],
    [openai.OpenAI(api_key=...)] and [os.environ]. *)
Variable encoding_for_model : string -> result Encoding.
Variable OpenAI : string -> Client.
Variable environ : gmap string string.

Definition __init__ (model : string) (system : option string) : result OpenAIModel :=
  enc ← encoding_for_model model;
  api_key ← match environ !! "OPENAI_API_KEY"%string with
            | Some key => Return key
            | None => Raise KeyError
            end;
  Return {| model := model;
            encoding := enc;
            client := OpenAI api_key;
            system := match system with
                      | Some s => if String.eqb s EmptyString then "You are a helpful assistant."%string else s
                      | None => "You are a helpful assistant."%string
                      end;
            max_api_retries := 5 |}.

Definition OpenAIModel_vocab_size (self : OpenAIModel) : Z := n_vocab (encoding self).

Definition OpenAIModel_argmax (self : OpenAIModel) (prefix : string)
    (logit_bias : option (option LogitBias)) : M Z :=
  let logit_bias := bind_default default_logit_bias logit_bias in
  let model := model self in
  let system := system self in
  enc ← lift (encoding_for_model model);
  output ←
    (if String.eqb model "gpt-3.5-turbo-instruct" then
       response ←
         match logit_bias with
         | Some bias =>
             call_completions (client self)
               {| c_model := model; c_prompt := prefix; c_temperature := 0;
                  c_max_tokens := 1; c_logit_bias := Some bias; c_n := Some 1;
                  c_logprobs := None |}
         | None =>
             call_completions (client self)
               {| c_model := model; c_prompt := prefix; c_temperature := 0;
                  c_max_tokens := 1; c_logit_bias := None; c_n := Some 1;
                  c_logprobs := None |}
         end;
       lift (choice ← subscript0 (completion_choices response);
             let output := choice_text choice in
             toks ← encode enc special_tokens "<|endoftext|>";
             eos_idx ← subscript0 toks;
             let outputs := choice_text <$> completion_choices response in
             Return output)
     else
       response ←
         match logit_bias with
         | Some bias =>
             call_chat (client self)
               {| h_model := model;
                  h_messages := [("system", system); ("user", prefix)]%string;
                  h_temperature := 0; h_max_tokens := 1; h_logit_bias := Some bias;
                  h_n := Some 1; h_logprobs := None; h_top_logprobs := None |}
         | None =>
             call_chat (client self)
               {| h_model := model;
                  h_messages := [("system", system); ("user", prefix)]%string;
                  h_temperature := 0; h_max_tokens := 1; h_logit_bias := None;
                  h_n := Some 1; h_logprobs := None; h_top_logprobs := None |}
         end;
       lift (choice ← subscript0 (chat_choices response);
             output ← message_getitem choice "content";
             outputs ← list_comp_pure (chat_choices response)
                         (fun choice => message_getitem choice "content");
             toks ← encode enc special_tokens "<|endoftext|>";
             eos_idx ← subscript0 toks;
             Return output));
  lift (first_token enc output).

(** The last two statements of [_instruct_logprobs]: the first choice's
    [top_logprobs[0]] dict, re-keyed by the first token of each text. *)
Definition instruct_normalize (self : OpenAIModel) (response : Completion)
    : result LogProbMap :=
  choice ← subscript0 (completion_choices response);
  logprobs ← getattr (choice_logprobs choice);
  topk_dict ← subscript0 logprobs;
  dict_comp (fun '(x, y) => t ← first_token (encoding self) x; Return (t, y))
            topk_dict.

(** The last statements of [_chat_logprobs]: the [top_logprobs] of the
    first position of the first choice, re-keyed in the same way. *)
Definition chat_normalize (self : OpenAIModel) (response : ChatCompletion)
    : result LogProbMap :=
  choice ← subscript0 (chat_choices response);
  logprobs ← getattr (chat_logprobs choice);
  raw_logprobs ← subscript0 logprobs;
  topk_dict ← dict_comp (fun lp => t ← first_token (encoding self) (token lp);
                                   Return (t, logprob lp))
                        raw_logprobs;
  Return topk_dict.

Definition _instruct_logprobs (self : OpenAIModel) (prefix : string)
    (logit_bias : option LogitBias) : M LogProbMap :=
  response ←
    match logit_bias with
    | Some bias =>
        call_completions (client self)
          {| c_model := model self; c_prompt := prefix; c_temperature := 1;
             c_max_tokens := 1; c_logit_bias := Some bias; c_n := None;
             c_logprobs := Some 5 |}
    | None =>
        call_completions (client self)
          {| c_model := model self; c_prompt := prefix; c_temperature := 1;
             c_max_tokens := 1; c_logit_bias := None; c_n := None;
             c_logprobs := Some 5 |}
    end;
  lift (instruct_normalize self response).

Definition _chat_logprobs (self : OpenAIModel) (prefix : string)
    (logit_bias : option LogitBias) : M LogProbMap :=
  response ←
    match logit_bias with
    | Some bias =>
        call_chat (client self)
          {| h_model := model self;
             h_messages := [("system", system self); ("user", prefix)]%string;
             h_temperature := 1; h_max_tokens := 1; h_logit_bias := Some bias;
             h_n := None; h_logprobs := Some true; h_top_logprobs := Some 5 |}
    | None =>
        call_chat (client self)
          {| h_model := model self;
             h_messages := [("system", system self); ("user", prefix)]%string;
             h_temperature := 1; h_max_tokens := 1; h_logit_bias := None;
             h_n := None; h_logprobs := Some true; h_top_logprobs := Some 5 |}
    end;
  lift (chat_normalize self response).

(** The body of the [try] statement of [topk]: the dispatch on the model
    identifier.  Both known branches end in a [return]. *)
Definition topk_dispatch (self : OpenAIModel) (prefix : string)
    (logit_bias : option LogitBias) : M LogProbMap :=
  if in_tuple (model self) legacy_models then
    _instruct_logprobs self prefix logit_bias
  else if startswith (model self) "gpt-4" || startswith (model self) "gpt-3" then
    _chat_logprobs self prefix logit_bias
  else
    raise (NotImplementedError ("Tried to get topk logprobs for: " +:+ model self)).

(** [f"OpenAI API call fail; sleeping for {10*(i+1)} seconds"] *)
Definition backoff_message (i : Z) : string :=
  "OpenAI API call fail; sleeping for " +:+ pretty (10 * (i + 1)) +:+ " seconds".

(** One iteration of the loop of [topk]. *)
Definition topk_attempt (self : OpenAIModel) (prefix : string)
    (logit_bias : option LogitBias) (i : Z) : M (option LogProbMap) :=
  try_except
    (Some <$> topk_dispatch self prefix logit_bias)
    isinstance_IndexError
    (print (backoff_message i);;
     time_sleep (10 * (i + 1));;
     mret None).

(** [topk]: the loop ends without a [return] when every attempt was
    caught, and the function then returns Python's [None]. *)
Definition OpenAIModel_topk (self : OpenAIModel) (prefix : string)
    (logit_bias : option (option LogitBias)) : M (option LogProbMap) :=
  let logit_bias := bind_default default_logit_bias logit_bias in
  for_return (range (max_api_retries self)) (topk_attempt self prefix logit_bias).

#[export] Instance OpenAIModel_Model : Model OpenAIModel := {
  vocab_size := OpenAIModel_vocab_size;
  argmax := OpenAIModel_argmax;
  topk := OpenAIModel_topk
}.
End OpenAI.

(** ** Stubs of the collaborators, used to run the model *)

(** A tokenizer with one token per byte: the text ["ab"] encodes to
    [[97; 98]] and the empty text to [[]]. *)
Definition byte_encoding : Encoding := {|
  n_vocab := 256;
  encode := fun _ text =>
    Return ((fun c => Z.of_nat (nat_of_ascii c)) <$> list_ascii_of_string text)
|}.

Definition stub_encoding_for_model (model : string) : result Encoding :=
  Return byte_encoding.

Definition stub_environ : gmap string string :=
  {[ "OPENAI_API_KEY"%string := "sk-test"%string ]}.

(** The text whose only byte is 7. *)
Definition text7 : string := String (ascii_of_nat 7) EmptyString.

Definition completion_of (entries : list (string * float)) : Completion :=
  {| completion_choices :=
       [ {| choice_text := "a"; choice_logprobs := Some [entries] |} ] |}.

Definition chat_completion_of (entries : list (string * float)) : ChatCompletion :=
  {| chat_choices :=
       [ {| message_content := "a";
            chat_logprobs :=
              Some [ (fun e => {| token := e.1; logprob := e.2 |}) <$> entries ] |} ] |}.

(** A client that answers call number [n] with [script n]: an exception, or
    the entries of one response ([None] for a response without choices). *)
Definition scripted_client (script : nat -> result (option (list (string * float))))
    : Client := {|
  completions_create := fun n _ =>
    o ← script n;
    Return (match o with
            | Some entries => completion_of entries
            | None => {| completion_choices := [] |}
            end);
  chat_completions_create := fun n _ =>
    o ← script n;
    Return (match o with
            | Some entries => chat_completion_of entries
            | None => {| chat_choices := [] |}
            end)
|}.

(** Every response is empty. *)
Definition empty_client : Client := scripted_client (fun _ => Return None).

(** Two empty responses, then token 7 with log-probability -0.5. *)
Definition flaky_client : Client :=
  scripted_client (fun n => Return (if (n <? 2)%nat then None
                                    else Some [(text7, (-0.5)%float)])).

(** Every call fails with a connection error. *)
Definition offline_client : Client :=
  scripted_client (fun _ => Raise (OpenAIError "APIConnectionError")).

(** Token 7 with the values 0.1, 0.3, 0.2 on successive calls, and 0.2
    afterwards. *)
Definition noisy_client : Client :=
  scripted_client (fun n => Return (Some [(text7,
    match n with
    | O => 0.1%float
    | S O => 0.3%float
    | _ => 0.2%float
    end)])).

(** One response whose two texts share their first token. *)
Definition colliding_client : Client :=
  scripted_client (fun _ => Return (Some [("a"%string, (-0.1)%float);
                                          ("ab"%string, (-0.5)%float)])).

(** [openai.OpenAI(api_key=...)] handing out a client that answers. *)
Definition stub_OpenAI (api_key : string) : Client := noisy_client.

Definition stub_model (name : string) (c : Client) : OpenAIModel := {|
  model := name;
  encoding := byte_encoding;
  client := c;
  system := "You are a helpful assistant.";
  max_api_retries := 5
|}.

(** ** Vocabulary of the statements *)

(** The attempt of [topk] that is made as API call number [n] (counting from
    0) ends with [r]: a map, or an exception. *)
Definition attempt_yields (self : OpenAIModel) (prefix : string)
    (logit_bias : option LogitBias) (n : nat) (r : result LogProbMap) : Prop :=
  forall t, length (calls t) = n -> (topk_dispatch self prefix logit_bias t).1 = r.

(** Run from the trace [t], [run] only adds events, and every request among
    them carries the [logit_bias] keyword [bias] ([None]: no such keyword). *)
Definition requests_carry {A} (run : M A) (t : list event) (bias : option LogitBias)
    : Prop :=
  exists evs, (run t).2 = t ++ evs
              /\ Forall (fun req => request_logit_bias req = bias) (calls evs).

(** What a failed and caught attempt number [i] leaves in the trace. *)
Definition caught_attempt (req : request) (i : Z) : list event :=
  [ApiCall req; Print (backoff_message i); Sleep (10 * (i + 1))].

(** [d] is the dict built from [entries] (texts with their values, in
    order) by re-encoding each text and keeping its first token: its keys
    are the first tokens, and a key holds the value of the last entry that
    has it. *)
Definition keyed_by_first_token (enc : Encoding) (entries : list (string * float))
    (d : LogProbMap) : Prop :=
  (forall t, t ∈ dom d <->
             exists x y, (x, y) ∈ entries /\ first_token enc x = Return t)
  /\ (forall before x y after t,
        entries = before ++ (x, y) :: after ->
        first_token enc x = Return t ->
        (forall x' y', (x', y') ∈ after -> first_token enc x' <> Return t) ->
        d !! t = Some y).

(** The median, as a specification: [m] is the median of [values] when it is
    NaN for values that are none or hold a NaN, and otherwise, with [s] the
    values in ascending order, the mean of the middle value of [s] for an
    odd number of values and the mean of the two middle values for an even
    number.  The means are written out in the arithmetic of the floats: the
    sum of the slice from [0.0], divided by its length. *)
Definition is_median (values : list float) (m : float) : Prop :=
  if existsb PrimFloat.is_nan values then m = nan
  else
    exists s,
      s ≡ₚ values
      /\ Sorted (fun x y => PrimFloat.leb x y = true) s
      /\ (values = [] -> m = nan)
      /\ (forall n x,
            length values = (2 * n + 1)%nat -> s !! n = Some x ->
            m = ((x + 0) / 1)%float)
      /\ (forall n x y,
            length values = (2 * n + 2)%nat ->
            s !! n = Some x -> s !! (n + 1)%nat = Some y ->
            m = ((x + (0 + y)) / 2)%float).

(** The request [argmax] issues when [logit_bias] is the value bound to its
    parameter: to the completions endpoint for "gpt-3.5-turbo-instruct", to
    the chat endpoint for every other identifier. *)
Definition argmax_request (self : OpenAIModel) (prefix : string)
    (logit_bias : option LogitBias) : request :=
  if String.eqb (model self) "gpt-3.5-turbo-instruct" then
    CompletionsCreate
      {| c_model := model self; c_prompt := prefix; c_temperature := 0;
         c_max_tokens := 1; c_logit_bias := logit_bias; c_n := Some 1;
         c_logprobs := None |}
  else
    ChatCompletionsCreate
      {| h_model := model self;
         h_messages := [("system", system self); ("user", prefix)]%string;
         h_temperature := 0; h_max_tokens := 1; h_logit_bias := logit_bias;
         h_n := Some 1; h_logprobs := None; h_top_logprobs := None |}.

(** The texts of the choices of the answer to that request, when it is
    made as API call number [n]: the [text] of a completion choice, the
    [content] of the message of a chat choice. *)
Definition argmax_outputs (self : OpenAIModel) (prefix : string)
    (logit_bias : option LogitBias) (n : nat) : result (list string) :=
  if String.eqb (model self) "gpt-3.5-turbo-instruct" then
    response ← completions_create (client self) n
                 {| c_model := model self; c_prompt := prefix; c_temperature := 0;
                    c_max_tokens := 1; c_logit_bias := logit_bias; c_n := Some 1;
                    c_logprobs := None |};
    Return (choice_text <$> completion_choices response)
  else
    response ← chat_completions_create (client self) n
                 {| h_model := model self;
                    h_messages := [("system", system self); ("user", prefix)]%string;
                    h_temperature := 0; h_max_tokens := 1; h_logit_bias := logit_bias;
                    h_n := Some 1; h_logprobs := None; h_top_logprobs := None |};
    Return (message_content <$> chat_choices response).

(** The sum of a list of delays. *)
Definition total (delays : list Z) : Z := foldr Z.add 0 delays.

(** More stubs. *)

(** A tokenizer lookup that knows no model. *)
Definition unknown_encoding_for_model (model : string) : result Encoding :=
  Raise KeyError.

(** Every response has the text "a" and then the empty text. *)
Definition blank_entry_client : Client :=
  scripted_client (fun _ => Return (Some [("a"%string, (-0.1)%float);
                                          (EmptyString, (-0.2)%float)])).

(** Token 7 on the first call, token 97 on the later ones. *)
Definition drifting_client : Client :=
  scripted_client (fun n => Return (Some (match n with
                                          | O => [(text7, (-0.1)%float)]
                                          | _ => [("a"%string, (-0.3)%float)]
                                          end))).


(** A response without entries on the first call, empty responses after. *)
Definition hollow_client : Client :=
  scripted_client (fun n => Return (match n with O => Some [] | _ => None end)).

(** * Properties *)

(** ** The monad and the loops *)

Lemma bind_Return {A B} (m : M A) (f : A -> M B) t a t' :
  m t = (Return a, t') -> (m ≫= f) t = f a t'.
Proof. intros Hm. unfold mbind, M_bind. now rewrite Hm. Qed.

Lemma bind_Raise {A B} (m : M A) (f : A -> M B) t e t' :
  m t = (Raise e, t') -> (m ≫= f) t = (Raise e, t').
Proof. intros Hm. unfold mbind, M_bind. now rewrite Hm. Qed.

Lemma calls_app t1 t2 : calls (t1 ++ t2) = calls t1 ++ calls t2.
Proof. unfold calls. apply omap_app. Qed.

Lemma sleeps_app t1 t2 : sleeps (t1 ++ t2) = sleeps t1 ++ sleeps t2.
Proof. unfold sleeps. apply omap_app. Qed.

Lemma for_return_app {X A} (xs ys : list X) (body : X -> M (option A)) t t' :
  for_return xs body t = (Return None, t') ->
  for_return (xs ++ ys) body t = for_return ys body t'.
Proof.
  revert t. induction xs as [|x xs IH]; intros t; simpl.
  - intros [= ->]. reflexivity.
  - unfold mbind, M_bind. destruct (body x t) as [[[a|]|e] t1]; try discriminate.
    apply IH.
Qed.

Lemma range_nat (n : Z) : range n = seqZ 0 (Z.of_nat (Z.to_nat n)).
Proof. unfold range, seqZ. now rewrite Nat2Z.id. Qed.

Lemma seqZ_S (i : Z) (j : nat) :
  seqZ i (Z.of_nat (S j)) = i :: seqZ (i + 1) (Z.of_nat j).
Proof.
  rewrite seqZ_cons by lia. f_equal. f_equal; lia.
Qed.


(** ** One attempt of [topk] *)

Section Attempt.
Variables (self : OpenAIModel) (prefix : string) (logit_bias : option LogitBias).

(** Either the identifier is outside both families and the dispatch raises
    at once, or it issues exactly one request, the same at every attempt,
    carrying the [logit_bias] it was given. *)
Lemma topk_dispatch_cases :
  (exists msg, forall t,
      topk_dispatch self prefix logit_bias t = (Raise (NotImplementedError msg), t))
  \/ (exists req,
        request_logit_bias req = logit_bias
        /\ (model self = "gpt-3.5-turbo-instruct"%string ->
            exists kw, req = CompletionsCreate kw)
        /\ forall t, (topk_dispatch self prefix logit_bias t).2 = t ++ [ApiCall req]).
Proof.
  unfold topk_dispatch.
  destruct (in_tuple (model self) legacy_models) eqn:Hlegacy.
  - right. unfold _instruct_logprobs.
    destruct logit_bias as [bias|]; eexists; (split; [|split]); cycle 2;
      try (intros t; unfold mbind, M_bind, call_completions, lift;
           destruct (completions_create _ _ _); reflexivity);
      try reflexivity; intros _; eexists; reflexivity.
  - destruct (startswith (model self) "gpt-4" || startswith (model self) "gpt-3").
    + right. unfold _chat_logprobs.
      destruct logit_bias as [bias|]; eexists; (split; [|split]); cycle 2;
        try (intros t; unfold mbind, M_bind, call_chat, lift;
             destruct (chat_completions_create _ _ _); reflexivity);
        try reflexivity; intros Hm; rewrite Hm in Hlegacy; discriminate Hlegacy.
    + left. eexists. intros t. reflexivity.
Qed.

Lemma topk_attempt_returns i t d t' :
  topk_dispatch self prefix logit_bias t = (Return d, t') ->
  topk_attempt self prefix logit_bias i t = (Return (Some d), t').
Proof.
  intros Hd. unfold topk_attempt, try_except, fmap, M_fmap. now rewrite Hd.
Qed.

Lemma topk_attempt_caught i t t' :
  topk_dispatch self prefix logit_bias t = (Raise IndexError, t') ->
  topk_attempt self prefix logit_bias i t
  = (Return None, t' ++ [Print (backoff_message i); Sleep (10 * (i + 1))]).
Proof.
  intros Hd. unfold topk_attempt, try_except, fmap, M_fmap. rewrite Hd. simpl.
  unfold mbind, M_bind, print, time_sleep, emit, mret, M_ret.
  now rewrite <- app_assoc.
Qed.

Lemma topk_attempt_propagates i t e t' :
  topk_dispatch self prefix logit_bias t = (Raise e, t') ->
  isinstance_IndexError e = false ->
  topk_attempt self prefix logit_bias i t = (Raise e, t').
Proof.
  intros Hd He. unfold topk_attempt, try_except, fmap, M_fmap.
  now rewrite Hd, He.
Qed.

(** The events one attempt adds: nothing but its request, whatever its
    result, and a message and a sleep when it was caught. *)
Lemma topk_attempt_events req i t :
  (forall t0, (topk_dispatch self prefix logit_bias t0).2 = t0 ++ [ApiCall req]) ->
  exists evs, (topk_attempt self prefix logit_bias i t).2 = t ++ evs
              /\ calls evs = [req].
Proof.
  intros Hreq. specialize (Hreq t).
  destruct (topk_dispatch self prefix logit_bias t) as [[d|e] t1] eqn:Hd;
    simpl in Hreq; subst t1.
  - rewrite (topk_attempt_returns _ _ _ _ Hd). now eexists.
  - destruct e;
      try (rewrite (topk_attempt_propagates _ _ _ _ Hd eq_refl); now eexists).
    rewrite (topk_attempt_caught _ _ _ Hd). rewrite <- app_assoc. now eexists.
Qed.

(** [j] attempts in a row that end in [IndexError], starting with attempt
    number [i]: each is followed by its message and its sleep, and the loop
    goes on. *)
Lemma failed_attempts req (j : nat) : forall (i : Z) t,
  (forall t0, (topk_dispatch self prefix logit_bias t0).2 = t0 ++ [ApiCall req]) ->
  (forall m, (m < j)%nat ->
             attempt_yields self prefix logit_bias (length (calls t) + m) (Raise IndexError)) ->
  for_return (seqZ i (Z.of_nat j)) (topk_attempt self prefix logit_bias) t
  = (Return None, t ++ (seqZ i (Z.of_nat j) ≫= caught_attempt req)).
Proof.
  induction j as [|j IH]; intros i t Hreq Hfail.
  - simpl. unfold mret, M_ret. now rewrite app_nil_r.
  - rewrite seqZ_S. simpl.
    assert (H0 := Hfail O ltac:(lia) t ltac:(lia)).
    assert (Ht := Hreq t).
    destruct (topk_dispatch self prefix logit_bias t) as [r t1] eqn:Hd.
    simpl in H0, Ht. subst r t1.
    rewrite (bind_Return _ _ _ _ _ (topk_attempt_caught i _ _ Hd)).
    rewrite IH; [|exact Hreq|].
    + f_equal. now rewrite <- !app_assoc.
    + intros m Hm. rewrite !calls_app, !length_app. simpl.
      replace (length (calls t) + 1 + 0 + m)%nat with (length (calls t) + S m)%nat by lia.
      apply Hfail. lia.
Qed.
End Attempt.

(** ** The retry loop of [topk] *)

Lemma sleeps_caught_attempts req (j : nat) : forall i,
  sleeps (seqZ i (Z.of_nat j) ≫= caught_attempt req)
  = (fun i => 10 * (i + 1)) <$> seqZ i (Z.of_nat j).
Proof.
  induction j as [|j IH]; intros i; [reflexivity|].
  rewrite seqZ_S. simpl. now rewrite IH.
Qed.

Lemma calls_caught_attempts req (j : nat) : forall i,
  length (calls (seqZ i (Z.of_nat j) ≫= caught_attempt req)) = j.
Proof.
  induction j as [|j IH]; intros i; [reflexivity|].
  rewrite seqZ_S. simpl. now rewrite IH.
Qed.

Section RetryLoop.
Variables (self : OpenAIModel) (prefix : string) (logit_bias : option LogitBias).
Variable req : request.
Hypothesis Hreq :
  forall t, (topk_dispatch self prefix logit_bias t).2 = t ++ [ApiCall req].

(** After [j] caught attempts the loop is at attempt number [j]. *)
Lemma loop_after_failures (j : nat) t :
  Z.of_nat j < max_api_retries self ->
  (forall m, (m < j)%nat ->
             attempt_yields self prefix logit_bias (length (calls t) + m) (Raise IndexError)) ->
  for_return (range (max_api_retries self)) (topk_attempt self prefix logit_bias) t
  = (r ← topk_attempt self prefix logit_bias (Z.of_nat j);
     match r with
     | Some a => mret (Some a)
     | None => for_return (seqZ (Z.of_nat j + 1) (max_api_retries self - Z.of_nat j - 1))
                          (topk_attempt self prefix logit_bias)
     end) (t ++ (seqZ 0 (Z.of_nat j) ≫= caught_attempt req)).
Proof.
  intros Hj Hfail. unfold range.
  replace (max_api_retries self)
    with (Z.of_nat j + (max_api_retries self - Z.of_nat j)) at 1 by lia.
  rewrite seqZ_app by lia.
  rewrite (for_return_app _ _ _ _ _ (failed_attempts _ _ _ req j 0 t Hreq Hfail)).
  rewrite seqZ_cons by lia. simpl.
  replace (Z.succ (0 + Z.of_nat j)) with (Z.of_nat j + 1) by lia.
  replace (Z.pred (max_api_retries self - Z.of_nat j))
    with (max_api_retries self - Z.of_nat j - 1) by lia.
  reflexivity.
Qed.

Lemma calls_after_failures (j : nat) t :
  length (calls (t ++ (seqZ 0 (Z.of_nat j) ≫= caught_attempt req)))
  = (length (calls t) + j)%nat.
Proof. now rewrite calls_app, length_app, calls_caught_attempts. Qed.

(** The events the whole loop adds are requests [req], messages and
    sleeps. *)
Lemma loop_events (xs : list Z) : forall t,
  exists evs,
    (for_return xs (topk_attempt self prefix logit_bias) t).2 = t ++ evs
    /\ Forall (fun r => r = req) (calls evs)
    /\ (xs <> [] -> calls evs <> []).
Proof.
  induction xs as [|i xs IH]; intros t.
  - exists []. simpl. rewrite app_nil_r. repeat split; [constructor|congruence].
  - simpl. unfold mbind, M_bind.
    destruct (topk_attempt_events self prefix logit_bias req i t Hreq)
      as (evs & Hevs & Hcalls).
    destruct (topk_attempt self prefix logit_bias i t) as [[[a|]|e] t1];
      simpl in Hevs; subst t1.
    + exists evs. rewrite Hcalls. repeat split; [repeat constructor|congruence].
    + destruct (IH (t ++ evs)) as (evs' & Hevs' & Hall & _).
      exists (evs ++ evs'). rewrite Hevs', <- app_assoc, calls_app, Hcalls.
      repeat split; [constructor; auto|simpl; congruence].
    + exists evs. rewrite Hcalls. repeat split; [repeat constructor|congruence].
Qed.
End RetryLoop.

Lemma calls_replicate (n : nat) (req : request) :
  length (calls (replicate n (ApiCall req))) = n.
Proof. induction n as [|n IH]; simpl; congruence. Qed.

(** An attempt that ends otherwise than in [NotImplementedError] issued a
    request. *)
Lemma attempt_request self prefix logit_bias n r :
  attempt_yields self prefix logit_bias n r ->
  (forall msg, r <> Raise (NotImplementedError msg)) ->
  exists req,
    request_logit_bias req = logit_bias
    /\ forall t, (topk_dispatch self prefix logit_bias t).2 = t ++ [ApiCall req].
Proof.
  intros Hy Hr.
  destruct (topk_dispatch_cases self prefix logit_bias) as [[msg Hn]|(req & Hb & _ & Hreq)].
  - exfalso. apply (Hr msg). rewrite <- (Hy (replicate n (ApiCall
      (CompletionsCreate (CompletionsKwargs EmptyString EmptyString 0 0 None None None))))
      (calls_replicate _ _)).
    now rewrite Hn.
  - now exists req.
Qed.

(** What the attempt made as call number [n] yields, for either family. *)
Lemma instruct_attempt_yields self prefix logit_bias n :
  in_tuple (model self) legacy_models = true ->
  attempt_yields self prefix logit_bias n
    (response ← completions_create (client self) n
                  {| c_model := model self; c_prompt := prefix; c_temperature := 1;
                     c_max_tokens := 1; c_logit_bias := logit_bias; c_n := None;
                     c_logprobs := Some 5 |};
     instruct_normalize self response).
Proof.
  intros Hm t Ht. unfold topk_dispatch. rewrite Hm.
  unfold _instruct_logprobs, mbind at 1, M_bind, call_completions, lift.
  destruct logit_bias; rewrite Ht;
    destruct (completions_create _ _ _); reflexivity.
Qed.

Lemma chat_attempt_yields self prefix logit_bias n :
  in_tuple (model self) legacy_models = false ->
  startswith (model self) "gpt-4" || startswith (model self) "gpt-3" = true ->
  attempt_yields self prefix logit_bias n
    (response ← chat_completions_create (client self) n
                  {| h_model := model self;
                     h_messages := [("system", system self); ("user", prefix)]%string;
                     h_temperature := 1; h_max_tokens := 1; h_logit_bias := logit_bias;
                     h_n := None; h_logprobs := Some true; h_top_logprobs := Some 5 |};
     chat_normalize self response).
Proof.
  intros Hm Hc t Ht. unfold topk_dispatch. rewrite Hm, Hc.
  unfold _chat_logprobs, mbind at 1, M_bind, call_chat, lift.
  destruct logit_bias; rewrite Ht;
    destruct (chat_completions_create _ _ _); reflexivity.
Qed.

(** ** Retry, backoff and propagation *)

(** C6.  When the first [j] attempts of [topk] end in [IndexError] (an empty
    response) and the next one yields the map [d], with [j] below the retry
    budget, [topk] returns [d].  Its trace is, [j] times, the request, the
    message and a sleep of [10 * (i + 1)] for attempt [i], and then the
    request once more: the delays are 10, 20, 30, ..., and there are exactly
    [j] retries. *)
Theorem topk_retries_with_linear_backoff
    (self : OpenAIModel) (prefix : string) (logit_bias : option (option LogitBias))
    (t : list event) (j : nat) (d : LogProbMap) :
  Z.of_nat j < max_api_retries self ->
  (forall m, (m < j)%nat ->
     attempt_yields self prefix (bind_default default_logit_bias logit_bias)
       (length (calls t) + m) (Raise IndexError)) ->
  attempt_yields self prefix (bind_default default_logit_bias logit_bias)
    (length (calls t) + j) (Return d) ->
  exists req t',
    OpenAIModel_topk self prefix logit_bias t = (Return (Some d), t')
    /\ t' = t ++ (seqZ 0 (Z.of_nat j) ≫= caught_attempt req) ++ [ApiCall req]
    /\ sleeps t' = sleeps t ++ ((fun i => 10 * (i + 1)) <$> seqZ 0 (Z.of_nat j))
    /\ length (calls t') = (length (calls t) + j + 1)%nat.
Proof.
  intros Hj Hfail Hok.
  destruct (attempt_request _ _ _ _ _ Hok) as (req & _ & Hreq); [discriminate|].
  exists req, (t ++ (seqZ 0 (Z.of_nat j) ≫= caught_attempt req) ++ [ApiCall req]).
  split; [|split; [reflexivity|split]].
  - unfold OpenAIModel_topk.
    rewrite (loop_after_failures _ _ _ req Hreq j t Hj Hfail).
    set (tj := t ++ (seqZ 0 (Z.of_nat j) ≫= caught_attempt req)).
    assert (Hd := Hok tj (calls_after_failures req j t)).
    assert (Ht := Hreq tj).
    destruct (topk_dispatch self prefix _ tj) as [r t1] eqn:Hdisp.
    simpl in Hd, Ht. subst r t1.
    rewrite (bind_Return _ _ _ _ _ (topk_attempt_returns _ _ _ _ _ _ _ Hdisp)).
    unfold tj, mret, M_ret. now rewrite <- app_assoc.
  - rewrite !sleeps_app, sleeps_caught_attempts. simpl. now rewrite app_nil_r.
  - rewrite !calls_app, !length_app, calls_caught_attempts. simpl. lia.
Qed.



(** C2, as the code has it.  When every attempt of [topk] ends in
    [IndexError], [topk] stops after [max_api_retries] attempts, each
    followed by its sleep, the last one too, and returns Python's [None]:
    the loop ends and nothing is raised. *)
Theorem topk_exhausted_returns_None
    (self : OpenAIModel) (prefix : string) (logit_bias : option (option LogitBias))
    (t : list event) :
  (forall m, (m < Z.to_nat (max_api_retries self))%nat ->
     attempt_yields self prefix (bind_default default_logit_bias logit_bias)
       (length (calls t) + m) (Raise IndexError)) ->
  exists t',
    OpenAIModel_topk self prefix logit_bias t = (Return None, t')
    /\ sleeps t' = sleeps t ++ ((fun i => 10 * (i + 1)) <$> range (max_api_retries self))
    /\ length (calls t') = (length (calls t) + Z.to_nat (max_api_retries self))%nat.
Proof.
  intros Hfail. unfold OpenAIModel_topk. rewrite range_nat.
  destruct (Z.to_nat (max_api_retries self)) as [|j] eqn:Hmax.
  - exists t. simpl. rewrite app_nil_r. repeat split; lia.
  - destruct (attempt_request _ _ _ _ _ (Hfail O ltac:(lia))) as (req & _ & Hreq);
      [discriminate|].
    rewrite (failed_attempts _ _ _ req (S j) 0 t Hreq Hfail).
    eexists. split; [reflexivity|split].
    + now rewrite sleeps_app, sleeps_caught_attempts.
    + now rewrite calls_app, length_app, calls_caught_attempts.
Qed.

(** The run of C6: two empty responses, then token 7. *)
Lemma topk_retries_twice_then_succeeds :
  exists req t',
    OpenAIModel_topk (stub_model "gpt-3.5-turbo-instruct" flaky_client) "p" None []
    = (Return (Some {[ 7 := (-0.5)%float ]}), t')
    /\ t' = [ApiCall req; Print "OpenAI API call fail; sleeping for 10 seconds"; Sleep 10;
             ApiCall req; Print "OpenAI API call fail; sleeping for 20 seconds"; Sleep 20;
             ApiCall req]
    /\ sleeps t' = [10; 20]
    /\ length (calls t') = 3%nat.
Proof.
  apply (topk_retries_with_linear_backoff
           (stub_model "gpt-3.5-turbo-instruct" flaky_client) "p" None [] 2
           {[ 7 := (-0.5)%float ]}).
  - reflexivity.
  - intros m Hm. destruct m as [|[|m]]; [| |lia].
    + exact (instruct_attempt_yields (stub_model "gpt-3.5-turbo-instruct" flaky_client)
               "p" (Some ∅) 0 eq_refl).
    + exact (instruct_attempt_yields (stub_model "gpt-3.5-turbo-instruct" flaky_client)
               "p" (Some ∅) 1 eq_refl).
  - exact (instruct_attempt_yields (stub_model "gpt-3.5-turbo-instruct" flaky_client)
               "p" (Some ∅) 2 eq_refl).
Defined.


(** The run of C2: every response is empty. *)
Lemma topk_exhausted_after_five_attempts :
  exists t',
    OpenAIModel_topk (stub_model "gpt-4" empty_client) "p" None [] = (Return None, t')
    /\ sleeps t' = [10; 20; 30; 40; 50]
    /\ length (calls t') = 5%nat.
Proof.
  apply (topk_exhausted_returns_None (stub_model "gpt-4" empty_client) "p" None []).
  intros m Hm.
  exact (chat_attempt_yields (stub_model "gpt-4" empty_client) "p" (Some ∅) m
           eq_refl eq_refl).
Defined.

(** ** Dispatch on the model identifier *)

Lemma init_fields encoding_for_model OpenAI environ name system self :
  __init__ encoding_for_model OpenAI environ name system = Return self ->
  model self = name /\ max_api_retries self = 5.
Proof.
  unfold __init__, mbind, result_bind.
  destruct (encoding_for_model name); [|discriminate].
  destruct (environ !! _); [|discriminate].
  intros [= <-]. split; reflexivity.
Qed.

(** C8.  For a model built by the constructor whose identifier is neither in
    the legacy tuple nor starts with "gpt-4" or "gpt-3", [topk] raises
    [NotImplementedError] and leaves the trace as it was: no request is
    issued, there is no sleep and no retry. *)
Theorem topk_unsupported_model
    (encoding_for_model : string -> result Encoding) (OpenAI : string -> Client)
    (environ : gmap string string) (name : string) (system : option string)
    (self : OpenAIModel) (prefix : string) (logit_bias : option (option LogitBias))
    (t : list event) :
  __init__ encoding_for_model OpenAI environ name system = Return self ->
  in_tuple name legacy_models = false ->
  startswith name "gpt-4" = false ->
  startswith name "gpt-3" = false ->
  OpenAIModel_topk self prefix logit_bias t
  = (Raise (NotImplementedError ("Tried to get topk logprobs for: " +:+ name)), t).
Proof.
  intros Hinit Hlegacy H4 H3.
  destruct (init_fields _ _ _ _ _ _ Hinit) as [Hname Hmax].
  unfold OpenAIModel_topk, range. rewrite Hmax. rewrite seqZ_cons by lia. simpl.
  apply bind_Raise. apply topk_attempt_propagates; [|reflexivity].
  unfold topk_dispatch. now rewrite Hname, Hlegacy, H4, H3.
Qed.

(** A run of C8: an identifier of neither family, with a client that would
    answer. *)
Lemma topk_unsupported_model_run :
  OpenAIModel_topk (stub_model "text-davinci-003" noisy_client) "p" None []
  = (Raise (NotImplementedError "Tried to get topk logprobs for: text-davinci-003"), []).
Proof.
  apply (topk_unsupported_model stub_encoding_for_model stub_OpenAI stub_environ
           "text-davinci-003" None (stub_model "text-davinci-003" noisy_client) "p" None []);
    reflexivity.
Defined.

Lemma instruct_logprobs_request self prefix logit_bias t :
  (_instruct_logprobs self prefix logit_bias t).2
  = t ++ [ApiCall (CompletionsCreate
                     {| c_model := model self; c_prompt := prefix; c_temperature := 1;
                        c_max_tokens := 1; c_logit_bias := logit_bias; c_n := None;
                        c_logprobs := Some 5 |})].
Proof.
  unfold _instruct_logprobs, mbind, M_bind, call_completions, lift.
  destruct logit_bias; destruct (completions_create _ _ _); reflexivity.
Qed.

(** C10.  For the identifier "gpt-3.5-turbo-instruct", which also starts
    with "gpt-3", and a retry budget of at least one attempt, [topk] runs
    [_instruct_logprobs]: the first event it adds is the completions request
    of [_instruct_logprobs], every further request is that same completions
    request, so none goes to the chat endpoint, and when that first call of
    [_instruct_logprobs] returns a map or raises another exception than
    [IndexError], that is the outcome of [topk]. *)
Theorem instruct_model_dispatches_to_legacy_branch
    (self : OpenAIModel) (prefix : string) (logit_bias : option (option LogitBias)) :
  model self = "gpt-3.5-turbo-instruct"%string ->
  0 < max_api_retries self ->
  startswith (model self) "gpt-3" = true
  /\ forall t,
       (exists kw evs,
           kw = {| c_model := "gpt-3.5-turbo-instruct"; c_prompt := prefix;
                   c_temperature := 1; c_max_tokens := 1;
                   c_logit_bias := bind_default default_logit_bias logit_bias;
                   c_n := None; c_logprobs := Some 5 |}
           /\ (OpenAIModel_topk self prefix logit_bias t).2
              = t ++ ApiCall (CompletionsCreate kw) :: evs
           /\ Forall (fun req => req = CompletionsCreate kw) (calls evs))
       /\ (forall d t',
             _instruct_logprobs self prefix
               (bind_default default_logit_bias logit_bias) t = (Return d, t') ->
             OpenAIModel_topk self prefix logit_bias t = (Return (Some d), t'))
       /\ (forall e t',
             _instruct_logprobs self prefix
               (bind_default default_logit_bias logit_bias) t = (Raise e, t') ->
             isinstance_IndexError e = false ->
             OpenAIModel_topk self prefix logit_bias t = (Raise e, t')).
Proof.
  intros Hm Hmax.
  set (lb := bind_default default_logit_bias logit_bias).
  assert (Hd : forall t, topk_dispatch self prefix lb t = _instruct_logprobs self prefix lb t).
  { intros t. unfold topk_dispatch. now rewrite Hm. }
  set (kw := {| c_model := "gpt-3.5-turbo-instruct"; c_prompt := prefix;
                c_temperature := 1; c_max_tokens := 1; c_logit_bias := lb;
                c_n := None; c_logprobs := Some 5 |}).
  assert (Hreq : forall t,
             (topk_dispatch self prefix lb t).2 = t ++ [ApiCall (CompletionsCreate kw)]).
  { intros t. rewrite Hd, instruct_logprobs_request. unfold kw. now rewrite Hm. }
  assert (Hloop : forall t,
             OpenAIModel_topk self prefix logit_bias t
             = (r ← topk_attempt self prefix lb 0;
                match r with
                | Some a => mret (Some a)
                | None => for_return (seqZ 1 (max_api_retries self - 1))
                                     (topk_attempt self prefix lb)
                end) t).
  { intros t. unfold OpenAIModel_topk, range. fold lb.
    rewrite seqZ_cons by lia. reflexivity. }
  split; [now rewrite Hm|]. intros t. split; [|split].
  - exists kw. rewrite Hloop. assert (Ht := Hreq t).
    destruct (topk_dispatch self prefix lb t) as [[d|e] t1] eqn:Hdisp;
      simpl in Ht; subst t1.
    + rewrite (bind_Return _ _ _ _ _ (topk_attempt_returns _ _ _ 0 _ _ _ Hdisp)).
      exists []. repeat split. constructor.
    + destruct (isinstance_IndexError e) eqn:He.
      * destruct e; try discriminate He.
        rewrite (bind_Return _ _ _ _ _ (topk_attempt_caught _ _ _ 0 _ _ Hdisp)).
        destruct (loop_events self prefix lb _ Hreq (seqZ 1 (max_api_retries self - 1))
                    ((t ++ [ApiCall (CompletionsCreate kw)])
                       ++ [Print (backoff_message 0); Sleep (10 * (0 + 1))]))
          as (evs & Hevs & Hall & _).
        exists ([Print (backoff_message 0); Sleep (10 * (0 + 1))] ++ evs).
        split; [reflexivity|]. split; [|rewrite calls_app; exact Hall].
        rewrite Hevs. now rewrite <- !app_assoc.
      * rewrite (bind_Raise _ _ _ _ _ (topk_attempt_propagates _ _ _ 0 _ _ _ Hdisp He)).
        exists []. repeat split. constructor.
  - intros d t' Hrun. rewrite <- Hd in Hrun. rewrite Hloop.
    now rewrite (bind_Return _ _ _ _ _ (topk_attempt_returns _ _ _ 0 _ _ _ Hrun)).
  - intros e t' Hrun He. rewrite <- Hd in Hrun. rewrite Hloop.
    now rewrite (bind_Raise _ _ _ _ _ (topk_attempt_propagates _ _ _ 0 _ _ _ Hrun He)).
Qed.

(** A run of C10: two empty responses and then an answer; the three
    requests are completions requests and the map is the one
    [_instruct_logprobs] returns for the third. *)
Lemma instruct_model_run :
  (startswith "gpt-3.5-turbo-instruct" "gpt-3" = true
   /\ forall t,
        (exists kw evs,
            kw = {| c_model := "gpt-3.5-turbo-instruct"; c_prompt := "p";
                    c_temperature := 1; c_max_tokens := 1;
                    c_logit_bias := Some ∅; c_n := None; c_logprobs := Some 5 |}
            /\ (OpenAIModel_topk (stub_model "gpt-3.5-turbo-instruct" flaky_client)
                  "p" None t).2
               = t ++ ApiCall (CompletionsCreate kw) :: evs
            /\ Forall (fun req => req = CompletionsCreate kw) (calls evs))
        /\ (forall d t',
              _instruct_logprobs (stub_model "gpt-3.5-turbo-instruct" flaky_client)
                "p" (Some ∅) t = (Return d, t') ->
              OpenAIModel_topk (stub_model "gpt-3.5-turbo-instruct" flaky_client)
                "p" None t = (Return (Some d), t'))
        /\ (forall e t',
              _instruct_logprobs (stub_model "gpt-3.5-turbo-instruct" flaky_client)
                "p" (Some ∅) t = (Raise e, t') ->
              isinstance_IndexError e = false ->
              OpenAIModel_topk (stub_model "gpt-3.5-turbo-instruct" flaky_client)
                "p" None t = (Raise e, t')))
  /\ length (calls (OpenAIModel_topk (stub_model "gpt-3.5-turbo-instruct" flaky_client)
                      "p" None []).2) = 3%nat
  /\ (OpenAIModel_topk (stub_model "gpt-3.5-turbo-instruct" flaky_client) "p" None []).1
     = Return (Some {[ 7 := (-0.5)%float ]}).
Proof.
  split; [|split; reflexivity].
  apply (instruct_model_dispatches_to_legacy_branch
           (stub_model "gpt-3.5-turbo-instruct" flaky_client) "p" None);
    reflexivity.
Defined.

(** ** The [logit_bias] a request carries *)

Lemma bind_lift_trace {A B} (m : M A) (g : A -> result B) t :
  ((a ← m; lift (g a)) t).2 = (m t).2.
Proof.
  unfold mbind, M_bind, lift. destruct (m t) as [[a|e] t']; reflexivity.
Qed.

(** [topk] passes the value bound to its parameter on, in every request. *)
Lemma topk_requests self prefix logit_bias t :
  requests_carry (OpenAIModel_topk self prefix logit_bias) t
    (bind_default default_logit_bias logit_bias).
Proof.
  unfold requests_carry, OpenAIModel_topk.
  destruct (topk_dispatch_cases self prefix (bind_default default_logit_bias logit_bias))
    as [[msg Hn]|(req & Hb & _ & Hreq)].
  - exists []. rewrite app_nil_r. split; [|constructor].
    destruct (range (max_api_retries self)) as [|i xs]; [reflexivity|]. simpl.
    now rewrite (bind_Raise _ _ _ _ _
                   (topk_attempt_propagates _ _ _ i _ _ _ (Hn t) eq_refl)).
  - destruct (loop_events self prefix _ req Hreq (range (max_api_retries self)) t)
      as (evs & Hevs & Hall & _).
    exists evs. split; [exact Hevs|].
    eapply Forall_impl; [exact Hall|]. now intros r ->.
Qed.

(** So does [argmax], in the one request it issues. *)
Lemma argmax_requests encoding_for_model self prefix logit_bias t :
  requests_carry (OpenAIModel_argmax encoding_for_model self prefix logit_bias) t
    (bind_default default_logit_bias logit_bias).
Proof.
  unfold requests_carry, OpenAIModel_argmax.
  destruct (encoding_for_model (model self)) as [enc|e] eqn:Henc.
  - rewrite (bind_Return _ _ t enc t eq_refl).
    rewrite (bind_lift_trace _ (first_token enc)).
    destruct (String.eqb (model self) "gpt-3.5-turbo-instruct").
    + rewrite bind_lift_trace.
      destruct (bind_default default_logit_bias logit_bias) as [bias|];
        (eexists; split; [reflexivity|]); repeat constructor.
    + rewrite bind_lift_trace.
      destruct (bind_default default_logit_bias logit_bias) as [bias|];
        (eexists; split; [reflexivity|]); repeat constructor.
  - exists []. rewrite app_nil_r. split; [reflexivity|constructor].
Qed.

(** C3, amended.  When the caller leaves [logit_bias] out, the parameter is
    bound to its default, the empty dict, and every request of [argmax] and
    of [topk] carries [logit_bias={}]; the keyword is left out of the
    request when the caller passes [None]. *)
Theorem omitted_logit_bias_sends_empty_dict
    (encoding_for_model : string -> result Encoding) (self : OpenAIModel)
    (prefix : string) (t : list event) :
  requests_carry (OpenAIModel_argmax encoding_for_model self prefix None) t (Some ∅)
  /\ requests_carry (OpenAIModel_topk self prefix None) t (Some ∅)
  /\ requests_carry (OpenAIModel_argmax encoding_for_model self prefix (Some None)) t None
  /\ requests_carry (OpenAIModel_topk self prefix (Some None)) t None.
Proof.
  repeat split.
  - apply (argmax_requests encoding_for_model self prefix None).
  - apply (topk_requests self prefix None).
  - apply (argmax_requests encoding_for_model self prefix (Some None)).
  - apply (topk_requests self prefix (Some None)).
Qed.

(** C3 as stated fails: called without [logit_bias], [argmax] and [topk]
    each issue a request whose [logit_bias] keyword is present (and is the
    empty dict). *)
Lemma omitted_logit_bias_is_not_absent :
  ~ Forall (fun req => request_logit_bias req = None)
      (calls (OpenAIModel_argmax stub_encoding_for_model
                (stub_model "gpt-4" noisy_client) "p" None []).2)
  /\ ~ Forall (fun req => request_logit_bias req = None)
         (calls (OpenAIModel_topk (stub_model "gpt-4" noisy_client) "p" None []).2).
Proof.
  split; intros H.
  - assert (H' : Forall (fun b : option LogitBias => b = None) [Some ∅]).
    { change [Some (∅ : LogitBias)] with
        (request_logit_bias <$>
           calls (OpenAIModel_argmax stub_encoding_for_model
                    (stub_model "gpt-4" noisy_client) "p" None []).2).
      apply Forall_fmap. exact H. }
    inversion H' as [|? ? Hhead]. discriminate Hhead.
  - assert (H' : Forall (fun b : option LogitBias => b = None) [Some ∅]).
    { change [Some (∅ : LogitBias)] with
        (request_logit_bias <$>
           calls (OpenAIModel_topk (stub_model "gpt-4" noisy_client) "p" None []).2).
      apply Forall_fmap. exact H. }
    inversion H' as [|? ? Hhead]. discriminate Hhead.
Qed.

(** ** Dict comprehensions *)

Section DictComp.
Context {X V : Type} (entry : X -> result (Z * V)).

Local Abbreviation inserts acc kvs :=
  (foldl (fun (m : gmap Z V) (kv : Z * V) => <[kv.1 := kv.2]> m) acc kvs).

(** A comprehension returns exactly when every entry does, and then it is
    the left-to-right insertion of the entries. *)
Lemma dict_comp_from_Return xs kvs : forall acc,
  Forall2 (fun x kv => entry x = Return kv) xs kvs ->
  dict_comp_from entry xs acc = Return (inserts acc kvs).
Proof.
  intros acc H. revert acc.
  induction H as [|x kv xs kvs Hx _ IH]; intros acc; [reflexivity|].
  simpl. rewrite Hx. simpl. apply IH.
Qed.

Lemma dict_comp_from_inv xs : forall acc d,
  dict_comp_from entry xs acc = Return d ->
  exists kvs, Forall2 (fun x kv => entry x = Return kv) xs kvs /\ d = inserts acc kvs.
Proof.
  induction xs as [|x xs IH]; intros acc d; simpl.
  - intros [= <-]. exists []. split; [constructor|reflexivity].
  - destruct (entry x) as [kv|e] eqn:Hx; simpl; [|discriminate].
    intros Hd. destruct (IH _ _ Hd) as (kvs & Hall & ->).
    exists (kv :: kvs). split; [now constructor|reflexivity].
Qed.

Lemma lookup_inserts_notin (kvs : list (Z * V)) k : forall acc,
  k ∉ kvs.*1 -> inserts acc kvs !! k = acc !! k.
Proof.
  induction kvs as [|[k' v'] kvs IH]; intros acc Hk; [reflexivity|].
  simpl in *. apply not_elem_of_cons in Hk as [Hne Hk].
  rewrite IH by exact Hk. now rewrite lookup_insert_ne.
Qed.

Lemma lookup_inserts_last (before after : list (Z * V)) k v acc :
  k ∉ after.*1 -> inserts acc (before ++ (k, v) :: after) !! k = Some v.
Proof.
  intros Hk. rewrite foldl_app. simpl.
  rewrite lookup_inserts_notin by exact Hk. apply lookup_insert_eq.
Qed.

Lemma dom_inserts (kvs : list (Z * V)) : forall acc,
  dom (inserts acc kvs) = dom acc ∪ list_to_set kvs.*1.
Proof.
  induction kvs as [|[k v] kvs IH]; intros acc; simpl.
  - now rewrite (right_id_L ∅ (∪)).
  - rewrite IH, dom_insert_L.
    now rewrite (comm_L (∪) {[k]} (dom acc)), (assoc_L (∪)).
Qed.
End DictComp.

Lemma dict_comp_from_fmap {X Y V} (f : X -> Y) (entry : Y -> result (Z * V)) xs :
  forall acc, dict_comp_from entry (f <$> xs) acc = dict_comp_from (fun x => entry (f x)) xs acc.
Proof.
  induction xs as [|x xs IH]; intros acc; [reflexivity|].
  simpl. destruct (entry (f x)); simpl; [apply IH|reflexivity].
Qed.


(** ** The response normalizers *)

Section Normalizer.
Variable enc : Encoding.
Variable entry : string * float -> result (Z * float).
Hypothesis Hentry :
  forall x y, entry (x, y) = (t ← first_token enc x; Return (t, y)).

Lemma entry_Return x y kv :
  entry (x, y) = Return kv <-> first_token enc x = Return kv.1 /\ kv.2 = y.
Proof.
  rewrite Hentry. destruct (first_token enc x) as [t|e]; simpl.
  - split.
    + intros [= <-]. split; reflexivity.
    + intros [[= ->] <-]. now destruct kv.
  - split; [discriminate|]. intros [[=] _].
Qed.

Lemma dict_comp_keyed entries d :
  dict_comp entry entries = Return d -> keyed_by_first_token enc entries d.
Proof.
  intros Hd. apply dict_comp_from_inv in Hd as (kvs & Hall & ->).
  assert (Hkeys : forall t, t ∈ kvs.*1 <->
            exists x y, (x, y) ∈ entries /\ first_token enc x = Return t).
  { intros t. rewrite list_elem_of_fmap. split.
    - intros (kv & -> & Hin). apply list_elem_of_lookup in Hin as [i Hi].
      destruct (Forall2_lookup_r _ _ _ _ _ Hall Hi) as ([x y] & Hx & Hkv).
      exists x, y. split; [eapply list_elem_of_lookup_2; exact Hx|].
      now apply entry_Return in Hkv as [Hkv _].
    - intros (x & y & Hin & Ht). apply list_elem_of_lookup in Hin as [i Hi].
      destruct (Forall2_lookup_l _ _ _ _ _ Hall Hi) as (kv & Hkv & Hx).
      exists kv. split; [|eapply list_elem_of_lookup_2; exact Hkv].
      apply entry_Return in Hx as [Hx _]. congruence. }
  split.
  - intros t. rewrite dom_inserts, dom_empty_L, (left_id_L ∅ (∪)), elem_of_list_to_set.
    apply Hkeys.
  - intros before x y after t -> Ht Hafter.
    apply Forall2_app_inv_l in Hall as (kb & k2 & _ & Hall & ->).
    apply Forall2_cons_inv_l in Hall as (kv & ka & Hkv & Hall & ->).
    apply entry_Return in Hkv as [Hkv Hy].
    assert (kv = (t, y)) as -> by (destruct kv; simpl in *; congruence).
    apply lookup_inserts_last. rewrite list_elem_of_fmap. intros (kv' & Hk & Hin).
    apply list_elem_of_lookup in Hin as [i Hi].
    destruct (Forall2_lookup_r _ _ _ _ _ Hall Hi) as ([x' y'] & Hx' & Hkv').
    apply entry_Return in Hkv' as [Hkv' _].
    apply (Hafter x' y'); [eapply list_elem_of_lookup_2; exact Hx'|congruence].
Qed.

Lemma dict_comp_total entries :
  (forall x y, (x, y) ∈ entries -> exists t, first_token enc x = Return t) ->
  exists d, dict_comp entry entries = Return d.
Proof.
  unfold dict_comp. generalize (∅ : LogProbMap).
  induction entries as [|[x y] entries IH]; intros acc Hall; simpl.
  - now eexists.
  - destruct (Hall x y) as [t Ht]; [left|].
    rewrite Hentry, Ht. simpl. apply IH.
    intros x' y' Hin. apply (Hall x' y'). now right.
Qed.
End Normalizer.

(** C9, amended.  For a response of either shape whose texts all re-encode
    to at least one token, the normalizer returns a map; its keys are the
    first tokens of the texts, and the first token of a text holds that
    text's log-probability when no later entry of the response has the same
    first token (a later one overwrites it). *)
Theorem normalizer_keys_by_first_token (self : OpenAIModel) :
  (forall response choice others entries positions,
      completion_choices response = choice :: others ->
      choice_logprobs choice = Some (entries :: positions) ->
      (forall x y, (x, y) ∈ entries ->
                   exists t, first_token (encoding self) x = Return t) ->
      exists d, instruct_normalize self response = Return d
                /\ keyed_by_first_token (encoding self) entries d)
  /\ (forall response choice others raw positions,
        chat_choices response = choice :: others ->
        chat_logprobs choice = Some (raw :: positions) ->
        (forall lp, lp ∈ raw ->
                    exists t, first_token (encoding self) (token lp) = Return t) ->
        exists d, chat_normalize self response = Return d
                  /\ keyed_by_first_token (encoding self)
                       ((fun lp => (token lp, logprob lp)) <$> raw) d).
Proof.
  split.
  - intros response choice others entries positions Hc Hl Hall.
    unfold instruct_normalize. rewrite Hc. simpl. rewrite Hl. simpl.
    set (entry := fun '(x, y) => t ← first_token (encoding self) x; Return (t, y)
                  : result (Z * float)).
    destruct (dict_comp_total (encoding self) entry ltac:(reflexivity) entries Hall)
      as [d Hd].
    exists d. split; [exact Hd|].
    exact (dict_comp_keyed (encoding self) entry ltac:(reflexivity) entries d Hd).
  - intros response choice others raw positions Hc Hl Hall.
    unfold chat_normalize. rewrite Hc. simpl. rewrite Hl. simpl.
    set (pair_of := fun lp : TopLogprob => (token lp, logprob lp)).
    set (entry := fun '(x, y) => t ← first_token (encoding self) x; Return (t, y)
                  : result (Z * float)).
    assert (Heq : dict_comp (fun lp => t ← first_token (encoding self) (token lp);
                                       Return (t, logprob lp)) raw
                  = dict_comp entry (pair_of <$> raw)).
    { unfold dict_comp. now rewrite dict_comp_from_fmap. }
    rewrite Heq.
    destruct (dict_comp_total (encoding self) entry ltac:(reflexivity) (pair_of <$> raw))
      as [d Hd].
    { intros x y Hin. apply list_elem_of_fmap in Hin as (lp & [= -> ->] & Hin).
      now apply Hall. }
    exists d. rewrite Hd. split; [reflexivity|].
    exact (dict_comp_keyed (encoding self) entry ltac:(reflexivity) _ d Hd).
Qed.

(** A run of C9: one text that encodes to the single token 7; the map is
    that token with the text's log-probability. *)
Lemma normalizer_single_entry :
  (exists d,
      instruct_normalize (stub_model "davinci-002" empty_client)
        (completion_of [(text7, (-0.5)%float)]) = Return d
      /\ keyed_by_first_token byte_encoding [(text7, (-0.5)%float)] d)
  /\ encode byte_encoding [] text7 = Return [7]
  /\ instruct_normalize (stub_model "davinci-002" empty_client)
       (completion_of [(text7, (-0.5)%float)])
     = Return {[ 7 := (-0.5)%float ]}.
Proof.
  split; [|split; reflexivity].
  apply (proj1 (normalizer_keys_by_first_token (stub_model "davinci-002" empty_client))
           (completion_of [(text7, (-0.5)%float)]) _ [] [(text7, (-0.5)%float)] []
           eq_refl eq_refl).
  intros x y Hin. apply list_elem_of_singleton in Hin as [= -> ->].
  exists 7. reflexivity.
Defined.

(** C9 as stated fails: the text "a" encodes to the single token 97, and the
    map holds -0.5 for that token, the value of the later text "ab". *)
Lemma normalizer_later_entry_overwrites :
  ~ (forall d,
       instruct_normalize (stub_model "davinci-002" colliding_client)
         (completion_of [("a"%string, (-0.1)%float); ("ab"%string, (-0.5)%float)])
       = Return d ->
       forall x y t,
         (x, y) ∈ [("a"%string, (-0.1)%float); ("ab"%string, (-0.5)%float)] ->
         encode byte_encoding [] x = Return [t] ->
         d !! t = Some y).
Proof.
  intros H.
  specialize (H {[ 97 := (-0.5)%float ]} eq_refl "a"%string (-0.1)%float 97
                ltac:(left) eq_refl).
  apply (f_equal (fun o : option float =>
                    match o with Some v => PrimFloat.ltb v (-0.3)%float | None => false end))
    in H.
  vm_compute in H. discriminate H.
Qed.

(** ** [np.median] *)

Section SortFacts.
Context {A : Type} (le : A -> A -> bool).

Lemma insert_sorted_Permutation x l : insert_sorted le x l ≡ₚ x :: l.
Proof.
  induction l as [|y l IH]; simpl; [reflexivity|].
  destruct (le x y); [reflexivity|]. rewrite IH. apply Permutation_swap.
Qed.

(** [sort] rearranges its argument ... *)
Lemma sort_Permutation l : sort le l ≡ₚ l.
Proof.
  induction l as [|x l IH]; simpl; [reflexivity|].
  now rewrite insert_sorted_Permutation, IH.
Qed.

(** [le] is total on the values that satisfy [ok]. *)
Variable ok : A -> Prop.
Hypothesis le_total : forall x y, ok x -> ok y -> le x y = false -> le y x = true.

Lemma insert_sorted_HdRel x y l :
  le y x = true -> HdRel (fun a b => le a b = true) y l ->
  HdRel (fun a b => le a b = true) y (insert_sorted le x l).
Proof.
  intros Hyx Hhd. destruct l as [|z l]; simpl; [now constructor|].
  destruct (le x z); constructor; [exact Hyx|]. now inversion Hhd.
Qed.

Lemma insert_sorted_Sorted x l :
  ok x -> Forall ok l ->
  Sorted (fun a b => le a b = true) l ->
  Sorted (fun a b => le a b = true) (insert_sorted le x l).
Proof.
  intros Hx Hl Hs. induction Hs as [|y l Hs IH Hhd]; simpl; [repeat constructor|].
  apply Forall_cons in Hl as [Hy Hl].
  destruct (le x y) eqn:Hxy.
  - constructor; [now constructor|now constructor].
  - constructor; [now apply IH|]. apply insert_sorted_HdRel; [|exact Hhd].
    now apply le_total.
Qed.

(** ... into ascending order, when [le] is total on its elements. *)
Lemma sort_Sorted l :
  Forall ok l -> Sorted (fun a b => le a b = true) (sort le l).
Proof.
  induction l as [|x l IH]; intros Hl; simpl; [constructor|].
  apply Forall_cons in Hl as [Hx Hl].
  apply insert_sorted_Sorted; [exact Hx| |now apply IH].
  now rewrite sort_Permutation.
Qed.
End SortFacts.

Lemma SFeqb_irrefl_nan (s : spec_float) : SFeqb s s = false -> s = S754_nan.
Proof.
  destruct s as [b|b| |b m e]; unfold SFeqb, SFcompare; simpl;
    try (destruct b; discriminate); try reflexivity.
  rewrite Z.compare_refl, Pos.compare_cont_refl. destruct b; discriminate.
Qed.

(** binary64 has one NaN in this model of floats. *)
Lemma is_nan_eq (v : float) : is_nan v = true -> v = nan.
Proof.
  unfold is_nan. rewrite FloatAxioms.eqb_spec. intros Hv. apply Prim2SF_inj.
  apply Bool.negb_true_iff in Hv. apply SFeqb_irrefl_nan in Hv. now rewrite Hv.
Qed.

Lemma SFcompare_antisym (s1 s2 : spec_float) :
  SFcompare s2 s1 = option_map CompOpp (SFcompare s1 s2).
Proof.
  destruct s1 as [b1|b1| |b1 m1 e1], s2 as [b2|b2| |b2 m2 e2]; simpl; try reflexivity;
    try (destruct b1; reflexivity); try (destruct b2; reflexivity);
    try (destruct b1, b2; reflexivity).
  destruct b1, b2; simpl; try reflexivity; f_equal.
  - rewrite (Z.compare_antisym e1 e2). destruct (e1 ?= e2)%Z; simpl; try reflexivity.
    now rewrite (Pos.compare_cont_antisym m1 m2 Eq).
  - rewrite (Z.compare_antisym e1 e2). destruct (e1 ?= e2)%Z; simpl; try reflexivity.
    now rewrite (Pos.compare_cont_antisym m1 m2 Eq).
Qed.

Lemma SFcompare_None (s1 s2 : spec_float) :
  SFcompare s1 s2 = None -> s1 = S754_nan \/ s2 = S754_nan.
Proof.
  destruct s1 as [b1|b1| |b1 m1 e1], s2 as [b2|b2| |b2 m2 e2]; simpl; auto; discriminate.
Qed.

Lemma not_nan_spec (v : float) : is_nan v = false -> Prim2SF v <> S754_nan.
Proof.
  unfold is_nan. rewrite FloatAxioms.eqb_spec. intros Hv Hs. now rewrite Hs in Hv.
Qed.

(** [<=] on floats is total apart from NaN. *)
Lemma float_leb_total (x y : float) :
  is_nan x = false -> is_nan y = false ->
  PrimFloat.leb x y = false -> PrimFloat.leb y x = true.
Proof.
  intros Hx Hy. rewrite !leb_spec. unfold SFleb.
  rewrite (SFcompare_antisym (Prim2SF x) (Prim2SF y)).
  destruct (SFcompare (Prim2SF x) (Prim2SF y)) as [[]|] eqn:Hc; simpl;
    try discriminate; try reflexivity.
  apply SFcompare_None in Hc as [Hc|Hc];
    [now apply not_nan_spec in Hx|now apply not_nan_spec in Hy].
Qed.

(** The values [np_median] takes the middle of are a rearrangement of its
    argument in ascending order. *)
Lemma np_median_sorted (a : list float) :
  existsb is_nan a = false ->
  sort PrimFloat.leb a ≡ₚ a
  /\ Sorted (fun x y => PrimFloat.leb x y = true) (sort PrimFloat.leb a).
Proof.
  intros Hnan. split; [apply sort_Permutation|].
  apply (sort_Sorted PrimFloat.leb (fun v => is_nan v = false)).
  - exact float_leb_total.
  - apply Forall_forall. intros v Hv.
    destruct (is_nan v) eqn:Hn; [|reflexivity].
    rewrite <- Hnan. symmetry. apply existsb_exists. exists v.
    split; [now apply list_elem_of_In|exact Hn].
Qed.

Lemma np_median_singleton (v : float) : np_median [v] = ((v + 0) / 1)%float.
Proof.
  unfold np_median. simpl. destruct (is_nan v) eqn:Hnan; simpl; [|reflexivity].
  now rewrite (is_nan_eq v Hnan).
Qed.

(** Without NaN, the median of an odd number of values is the mean of the
    middle one of the sorted values ... *)
Lemma np_median_odd (a : list float) (n : nat) :
  existsb is_nan a = false -> length a = (2 * n + 1)%nat ->
  np_median a = ((nth n (sort PrimFloat.leb a) nan + 0) / 1)%float.
Proof.
  intros Hnan Hlen. unfold np_median. rewrite Hnan, Hlen.
  replace (2 * n + 1)%nat with (S (2 * n)) by lia.
  rewrite Nat.odd_succ, Nat.even_mul. simpl orb. cbv iota.
  replace (S (2 * n) / 2)%nat with n; [reflexivity|].
  apply (Nat.div_unique _ 2 n 1); lia.
Qed.

(** ... and the median of an even number of values is the mean of the two
    middle ones. *)
Lemma np_median_even (a : list float) (n : nat) :
  existsb is_nan a = false -> length a = (2 * n + 2)%nat ->
  np_median a
  = ((nth n (sort PrimFloat.leb a) nan
      + (0 + nth (n + 1) (sort PrimFloat.leb a) nan)) / 2)%float.
Proof.
  intros Hnan Hlen. unfold np_median. rewrite Hnan, Hlen.
  replace (2 * n + 2)%nat with (S (S (2 * n))) by lia.
  rewrite Nat.odd_succ, Nat.even_succ, Nat.odd_mul. simpl andb. cbv iota.
  replace (S (S (2 * n)) / 2)%nat with (n + 1)%nat
    by (apply (Nat.div_unique _ 2 (n + 1) 0); lia).
  now replace (n + 1 - 1)%nat with n by lia.
Qed.

(** [np_median] computes the median. *)
Lemma np_median_is_median (values : list float) : is_median values (np_median values).
Proof.
  unfold is_median. destruct (existsb is_nan values) eqn:Hnan.
  - unfold np_median. now rewrite Hnan.
  - destruct (np_median_sorted values Hnan) as [Hperm Hsorted].
    exists (sort PrimFloat.leb values). split; [exact Hperm|]. split; [exact Hsorted|].
    split; [|split].
    + now intros ->.
    + intros n x Hlen Hx. rewrite (np_median_odd values n Hnan Hlen).
      now rewrite (nth_lookup_Some _ _ nan x Hx).
    + intros n x y Hlen Hx Hy. rewrite (np_median_even values n Hnan Hlen).
      now rewrite (nth_lookup_Some _ _ nan x Hx), (nth_lookup_Some _ _ nan y Hy).
Qed.

(** ** Aggregation over repeated queries *)

Lemma list_comp_length {X A} (body : X -> M A) (xs : list X) : forall t l t',
  list_comp xs body t = (Return l, t') -> length l = length xs.
Proof.
  induction xs as [|x xs IH]; intros t l t'; simpl.
  - now intros [= <- _].
  - unfold mbind, M_bind. destruct (body x t) as [[a|e] t1]; [|discriminate].
    destruct (list_comp xs body t1) as [[l'|e] t2] eqn:Hrest; [|discriminate].
    intros [= <- _]. simpl. f_equal. eapply IH. exact Hrest.
Qed.

Lemma range_length (k : Z) : length (range k) = Z.to_nat k.
Proof. apply length_seqZ. Qed.

(** The values of [word] across results that all have it. *)
Lemma column_of_word (results : list LogProbMap) (word : Z) :
  (forall r, r ∈ results -> word ∈ dom r) ->
  exists column,
    list_comp_pure (Some <$> results) (fun r => getitem r word) = Return column
    /\ Forall2 (fun (r : LogProbMap) v => r !! word = Some v) results column.
Proof.
  induction results as [|r results IH]; intros Hall.
  - exists []. split; [reflexivity|constructor].
  - destruct (IH ltac:(intros r' Hr'; apply Hall; now right)) as (column & Hcol & Hf).
    destruct (proj1 (elem_of_dom r word) (Hall r ltac:(left))) as [v Hv].
    exists (v :: column). split; [|now constructor].
    cbn [fmap list_fmap list_comp_pure getitem]. rewrite Hv. simpl.
    change (list_fmap _ _ Some results) with (Some <$> results).
    now rewrite Hcol.
Qed.

Lemma Forall2_of_pointwise {X Y} (P : X -> Y -> Prop) (xs : list X) :
  (forall x, x ∈ xs -> exists y, P x y) -> exists ys, Forall2 P xs ys.
Proof.
  induction xs as [|x xs IH]; intros Hall.
  - exists []. constructor.
  - destruct (Hall x ltac:(left)) as [y Hy].
    destruct (IH ltac:(intros x' Hx'; apply Hall; now right)) as [ys Hys].
    exists (y :: ys). now constructor.
Qed.

Lemma lookup_inserts_NoDup {V} (kvs : list (Z * V)) k v acc :
  NoDup kvs.*1 -> (k, v) ∈ kvs ->
  foldl (fun (m : gmap Z V) kv => <[kv.1 := kv.2]> m) acc kvs !! k = Some v.
Proof.
  intros Hnd Hin. apply list_elem_of_split in Hin as (before & after & ->).
  apply lookup_inserts_last.
  rewrite fmap_app, fmap_cons in Hnd. apply NoDup_app in Hnd as (_ & _ & Hnd).
  now apply NoDup_cons in Hnd as [Hk _].
Qed.

Lemma keys_dom (m : LogProbMap) : list_to_set (map_to_list m).*1 = dom m.
Proof.
  apply set_eq. intros w.
  rewrite elem_of_list_to_set, elem_of_dom, list_elem_of_fmap. split.
  - intros ([w' v] & -> & Hin). apply elem_of_map_to_list in Hin. now exists v.
  - intros [v Hv]. exists (w, v). split; [reflexivity|]. now apply elem_of_map_to_list.
Qed.

Lemma Forall2_fst {K V} (ks : list K) (kvs : list (K * V)) :
  Forall2 (fun k kv => kv.1 = k) ks kvs -> kvs.*1 = ks.
Proof.
  induction 1 as [|k kv ks kvs Hk _ IH]; [reflexivity|].
  rewrite fmap_cons. now rewrite Hk, IH.
Qed.

(** The reduction [median_topk] applies to the results of its queries. *)
Lemma median_of_results (first : LogProbMap) (rest : list LogProbMap) :
  let results := first :: rest in
  (forall r, r ∈ results -> dom first ⊆ dom r) ->
  exists d,
    (first ← subscript0 (Some <$> results);
     words ← keys first;
     dict_comp (fun word =>
                  column ← list_comp_pure (Some <$> results) (fun r => getitem r word);
                  med ← np_median_call [column];
                  Return (word, med))
               words) = Return d
    /\ dom d = dom first
    /\ forall word, word ∈ dom first ->
         exists column,
           Forall2 (fun (r : LogProbMap) v => r !! word = Some v) results column
           /\ d !! word = Some (np_median column).
Proof.
  intros results Hkeys.
  set (entry := fun word : Z =>
         column ← list_comp_pure (Some <$> results) (fun r => getitem r word);
         med ← np_median_call [column];
         Return (word, med)).
  set (words := (map_to_list first).*1).
  assert (Hwords : forall word, word ∈ words <-> word ∈ dom first).
  { intros word. unfold words. now rewrite <- keys_dom, elem_of_list_to_set. }
  destruct (Forall2_of_pointwise
              (fun word (kv : Z * float) =>
                 entry word = Return kv /\ kv.1 = word
                 /\ exists column,
                     Forall2 (fun (r : LogProbMap) v => r !! word = Some v) results column
                     /\ kv.2 = np_median column) words) as [kvs Hkvs].
  { intros word Hw. apply Hwords in Hw.
    destruct (column_of_word results word) as (column & Hcol & Hf).
    { intros r Hr. apply (Hkeys r Hr), Hw. }
    exists (word, np_median column). repeat split.
    - unfold entry. now rewrite Hcol.
    - now exists column. }
  assert (Hfst : kvs.*1 = words).
  { apply Forall2_fst. eapply Forall2_impl; [exact Hkvs|]. now intros ? ? (_ & ? & _). }
  exists (foldl (fun (m : LogProbMap) kv => <[kv.1 := kv.2]> m) ∅ kvs).
  split; [|split].
  - change (dict_comp entry words = Return (foldl (fun (m : LogProbMap) kv => <[kv.1 := kv.2]> m) ∅ kvs)).
    apply dict_comp_from_Return. eapply Forall2_impl; [exact Hkvs|].
    now intros ? ? [? _].
  - rewrite dom_inserts, dom_empty_L, (left_id_L ∅ (∪)), Hfst. apply keys_dom.
  - intros word Hw. apply Hwords in Hw.
    apply list_elem_of_lookup in Hw as [i Hi].
    destruct (Forall2_lookup_l _ _ _ _ _ Hkvs Hi) as ([w v] & Hkv & _ & Hw & column & Hf & Hv).
    simpl in Hw, Hv. subst w v. exists column. split; [exact Hf|].
    apply lookup_inserts_NoDup.
    + rewrite Hfst. apply NoDup_fst_map_to_list.
    + eapply list_elem_of_lookup_2. exact Hkv.
Qed.

Section MedianTopk.
Context {Self : Type} `{Model Self}.

(** C4.  When the [k >= 1] sub-queries of [median_topk] return maps that
    all have every key of the first one, [median_topk] returns a map with
    exactly the keys of the first one, and each key holds the median of the
    key's values across the [k] results: the mean of the middle value of
    these values in ascending order, or of the two middle values for an even
    [k].  The keys the first result lacks are not in the map. *)
Theorem median_topk_per_key_median
    (self : Self) (k : Z) (prefix : string) (logit_bias : option (option LogitBias))
    (t t' : list event) (results : list LogProbMap) :
  1 <= k ->
  list_comp (range k) (fun _ => topk self prefix logit_bias) t
  = (Return (Some <$> results), t') ->
  (forall first r, head results = Some first -> r ∈ results -> dom first ⊆ dom r) ->
  exists first d,
    head results = Some first
    /\ length results = Z.to_nat k
    /\ median_topk self k prefix logit_bias t = (Return d, t')
    /\ dom d = dom first
    /\ forall word, word ∈ dom first ->
         exists column m,
           Forall2 (fun (r : LogProbMap) v => r !! word = Some v) results column
           /\ d !! word = Some m
           /\ m = np_median column
           /\ is_median column m.
Proof.
  intros Hk Hlist Hkeys.
  assert (Hlen : length results = Z.to_nat k).
  { apply list_comp_length in Hlist.
    now rewrite length_fmap, range_length in Hlist. }
  destruct results as [|first rest]; [simpl in Hlen; lia|].
  destruct (median_of_results first rest (fun r => Hkeys first r eq_refl))
    as (d & Hd & Hdom & Hmed).
  exists first, d. split; [reflexivity|]. split; [exact Hlen|].
  split; [|split; [exact Hdom|]].
  - unfold median_topk. rewrite (bind_Return _ _ _ _ _ Hlist).
    unfold lift. f_equal. exact Hd.
  - intros word Hword. destruct (Hmed word Hword) as (column & Hcol & Hvalue).
    exists column, (np_median column).
    split; [exact Hcol|]. split; [exact Hvalue|]. split; [reflexivity|].
    apply np_median_is_median.
Qed.
End MedianTopk.

(** The run of C4: three results for token 7, with the values 0.1, 0.3 and
    0.2; the map returned holds 0.2 for it. *)
Lemma median_topk_three_noisy_results :
  (exists first d,
      head [ ({[ 7 := 0.1%float ]} : LogProbMap); {[ 7 := 0.3%float ]}; {[ 7 := 0.2%float ]} ]
      = Some first
      /\ length [ ({[ 7 := 0.1%float ]} : LogProbMap); {[ 7 := 0.3%float ]};
                  {[ 7 := 0.2%float ]} ] = Z.to_nat 3
      /\ median_topk (H := OpenAIModel_Model stub_encoding_for_model)
           (stub_model "gpt-4" noisy_client) 3 "p" None []
         = (Return d,
            (list_comp (range 3)
               (fun _ => OpenAIModel_topk (stub_model "gpt-4" noisy_client) "p" None) []).2)
      /\ dom d = dom first
      /\ forall word, word ∈ dom first ->
           exists column m,
             Forall2 (fun (r : LogProbMap) v => r !! word = Some v)
               [ ({[ 7 := 0.1%float ]} : LogProbMap); {[ 7 := 0.3%float ]};
                 {[ 7 := 0.2%float ]} ] column
             /\ d !! word = Some m
             /\ m = np_median column
             /\ is_median column m)
  /\ (median_topk (H := OpenAIModel_Model stub_encoding_for_model)
        (stub_model "gpt-4" noisy_client) 3 "p" None []).1
     = Return {[ 7 := 0.2%float ]}.
Proof.
  split.
  - apply (median_topk_per_key_median (H := OpenAIModel_Model stub_encoding_for_model)
             (stub_model "gpt-4" noisy_client) 3 "p" None []).
    + lia.
    + vm_compute. reflexivity.
    + intros first r [= <-] Hr.
      repeat (apply elem_of_cons in Hr as [-> | Hr]);
        [| | |now apply not_elem_of_nil in Hr];
        rewrite !dom_singleton_L; reflexivity.
  - vm_compute. reflexivity.
Defined.

Section MedianArgmax.
Context {Self : Type} `{Model Self}.

(** C1, as the code has it.  [median_argmax] never returns a value: it
    raises for every input, and when its [k] argmax queries all return it
    raises [TypeError], from the call of [np.median] without an argument,
    after these [k] queries. *)
Theorem median_argmax_raises
    (self : Self) (k : Z) (prefix : string) (logit_bias : option (option LogitBias))
    (t : list event) :
  exists e t',
    median_argmax self k prefix logit_bias t = (Raise e, t')
    /\ forall results t1,
         list_comp (range k) (fun _ => argmax self prefix logit_bias) t
         = (Return results, t1) ->
         e = TypeError /\ t' = t1 /\ length results = Z.to_nat k.
Proof.
  unfold median_argmax.
  destruct (list_comp (range k) (fun _ => argmax self prefix logit_bias) t)
    as [[results|e] t1] eqn:Hlist.
  - exists TypeError, t1. split.
    + now rewrite (bind_Return _ _ _ _ _ Hlist).
    + intros results' t1' [= <- <-]. repeat split.
      apply list_comp_length in Hlist. now rewrite range_length in Hlist.
  - exists e, t1. split.
    + now rewrite (bind_Raise _ _ _ _ _ Hlist).
    + discriminate.
Qed.
End MedianArgmax.

(** The run of C1: three argmax queries that each return token 97. *)
Lemma median_argmax_three_queries :
  list_comp (range 3)
    (fun _ => OpenAIModel_argmax stub_encoding_for_model
                (stub_model "gpt-3.5-turbo-instruct" noisy_client) "p" None) []
  = (Return [97; 97; 97],
     (list_comp (range 3)
        (fun _ => OpenAIModel_argmax stub_encoding_for_model
                    (stub_model "gpt-3.5-turbo-instruct" noisy_client) "p" None) []).2)
  /\ (median_argmax (H := OpenAIModel_Model stub_encoding_for_model)
        (stub_model "gpt-3.5-turbo-instruct" noisy_client) 3 "p" None []).1
     = Raise TypeError.
Proof.
  assert (Hrun : list_comp (range 3)
            (fun _ => OpenAIModel_argmax stub_encoding_for_model
                        (stub_model "gpt-3.5-turbo-instruct" noisy_client) "p" None) []
          = (Return [97; 97; 97],
             (list_comp (range 3)
                (fun _ => OpenAIModel_argmax stub_encoding_for_model
                            (stub_model "gpt-3.5-turbo-instruct" noisy_client) "p" None) []).2)).
  { vm_compute. reflexivity. }
  split; [exact Hrun|].
  destruct (median_argmax_raises (H := OpenAIModel_Model stub_encoding_for_model)
              (stub_model "gpt-3.5-turbo-instruct" noisy_client) 3 "p" None [])
    as (e & t' & Hraise & Hall).
  destruct (Hall _ _ Hrun) as (-> & _ & _).
  now rewrite Hraise.
Defined.

(** ** [median_topk] with [k = 1] *)

(** C5, as the code has it.  When every response is empty, [topk] returns
    Python's [None] and [median_topk] with [k = 1], on the same trace of
    events, raises [AttributeError] at [results[0].keys()]: the two calls do
    not agree. *)
Theorem median_topk_one_differs_on_exhaustion :
  exists t',
    OpenAIModel_topk (stub_model "gpt-4" empty_client) "p" None [] = (Return None, t')
    /\ median_topk (H := OpenAIModel_Model stub_encoding_for_model)
         (stub_model "gpt-4" empty_client) 1 "p" None []
       = (Raise AttributeError, t').
Proof.
  eexists. split; vm_compute; reflexivity.
Qed.

(** Apart from that, the two agree up to the arithmetic of [np.median]: when
    [topk] returns a map, [median_topk] with [k = 1] returns the map of the
    means [(v + 0.0) / 1] of its values [v], and when [topk] raises, it
    raises the same exception. *)
Lemma median_topk_one_of_map {Self : Type} `{Model Self}
    (self : Self) (prefix : string) (logit_bias : option (option LogitBias))
    (t t' : list event) :
  (forall d, topk self prefix logit_bias t = (Return (Some d), t') ->
             median_topk self 1 prefix logit_bias t
             = (Return ((fun v => ((v + 0) / 1)%float) <$> d), t'))
  /\ (forall e, topk self prefix logit_bias t = (Raise e, t') ->
                median_topk self 1 prefix logit_bias t = (Raise e, t')).
Proof.
  split.
  - intros d Htopk.
    assert (Hlist : list_comp (range 1) (fun _ => topk self prefix logit_bias) t
                    = (Return [Some d], t')).
    { simpl. now rewrite (bind_Return _ _ _ _ _ Htopk). }
    unfold median_topk. rewrite (bind_Return _ _ _ _ _ Hlist).
    destruct (median_of_results d []) as (d' & Hd' & Hdom & Hmed).
    { intros r Hr. now apply list_elem_of_singleton in Hr as ->. }
    unfold lift. f_equal. etransitivity; [exact Hd'|]. f_equal.
    apply map_eq. intros word. rewrite lookup_fmap.
    destruct (d !! word) as [v|] eqn:Hv; simpl.
    + destruct (Hmed word) as (column & Hcol & ->); [now apply elem_of_dom|].
      apply Forall2_cons_inv_l in Hcol as (v' & column' & Hv' & Hnil & ->).
      apply Forall2_nil_inv_l in Hnil as ->.
      rewrite np_median_singleton. congruence.
    + apply not_elem_of_dom. rewrite Hdom. now apply not_elem_of_dom.
  - intros e Htopk. unfold median_topk. apply bind_Raise.
    simpl. now rewrite (bind_Raise _ _ _ _ _ Htopk).
Qed.

(** * Further properties of the module *)

(** ** [argmax] *)

(** What [argmax] does once the tokenizer lookup has succeeded: one request,
    and a result computed from the answer alone.  On the completions branch
    the result is the first token of the first text ... *)
Lemma argmax_run_completions encoding_for_model self prefix logit_bias t enc :
  encoding_for_model (model self) = Return enc ->
  String.eqb (model self) "gpt-3.5-turbo-instruct" = true ->
  OpenAIModel_argmax encoding_for_model self prefix logit_bias t
  = (outputs ← argmax_outputs self prefix
                 (bind_default default_logit_bias logit_bias) (length (calls t));
     output ← subscript0 outputs;
     toks ← encode enc special_tokens "<|endoftext|>";
     eos_idx ← subscript0 toks;
     first_token enc output,
     t ++ [ApiCall (argmax_request self prefix
                      (bind_default default_logit_bias logit_bias))]).
Proof.
  intros Henc Hm. unfold OpenAIModel_argmax, argmax_outputs, argmax_request.
  rewrite (bind_Return _ _ t enc t); [|unfold lift; now rewrite Henc].
  rewrite Hm.
  destruct (bind_default default_logit_bias logit_bias) as [bias|];
    unfold mbind at 1 2, M_bind, call_completions, lift.
  - destruct (completions_create _ _ _) as [[[|c cs]]|e]; simpl; try reflexivity.
    destruct (encode enc special_tokens _) as [[|eos toks]|e]; reflexivity.
  - destruct (completions_create _ _ _) as [[[|c cs]]|e]; simpl; try reflexivity.
    destruct (encode enc special_tokens _) as [[|eos toks]|e]; reflexivity.
Qed.

(** ... and on the chat branch there is no result: with a choice in the
    answer, the subscript of its message raises. *)
Lemma argmax_run_chat encoding_for_model self prefix logit_bias t enc :
  encoding_for_model (model self) = Return enc ->
  String.eqb (model self) "gpt-3.5-turbo-instruct" = false ->
  OpenAIModel_argmax encoding_for_model self prefix logit_bias t
  = (outputs ← argmax_outputs self prefix
                 (bind_default default_logit_bias logit_bias) (length (calls t));
     output ← subscript0 outputs;
     Raise TypeError,
     t ++ [ApiCall (argmax_request self prefix
                      (bind_default default_logit_bias logit_bias))]).
Proof.
  intros Henc Hm. unfold OpenAIModel_argmax, argmax_outputs, argmax_request.
  rewrite (bind_Return _ _ t enc t); [|unfold lift; now rewrite Henc].
  rewrite Hm.
  destruct (bind_default default_logit_bias logit_bias) as [bias|];
    unfold mbind at 1 2, M_bind, call_chat, lift.
  - destruct (chat_completions_create _ _ _) as [[[|c cs]]|e]; reflexivity.
  - destruct (chat_completions_create _ _ _) as [[[|c cs]]|e]; reflexivity.
Qed.

Lemma argmax_trace encoding_for_model self prefix logit_bias t enc :
  encoding_for_model (model self) = Return enc ->
  (OpenAIModel_argmax encoding_for_model self prefix logit_bias t).2
  = t ++ [ApiCall (argmax_request self prefix
                     (bind_default default_logit_bias logit_bias))].
Proof.
  intros Henc. destruct (String.eqb (model self) "gpt-3.5-turbo-instruct") eqn:Hm.
  - now rewrite (argmax_run_completions _ _ _ _ _ _ Henc Hm).
  - now rewrite (argmax_run_chat _ _ _ _ _ _ Henc Hm).
Qed.

Lemma argmax_unknown_tokenizer encoding_for_model self prefix logit_bias t e :
  encoding_for_model (model self) = Raise e ->
  OpenAIModel_argmax encoding_for_model self prefix logit_bias t = (Raise e, t).
Proof.
  intros Henc. unfold OpenAIModel_argmax.
  apply bind_Raise. unfold lift. now rewrite Henc.
Qed.

(** X1.  For the identifier "gpt-3.5-turbo-instruct", [argmax] returns the
    first token of the re-encoded text of the first choice: the other
    choices and the rest of the encoding play no part, and the encoding of
    "<|endoftext|>" must not be empty, although its first token is not
    used.  For every other identifier [argmax] returns no token: when the
    answer has a choice it raises [TypeError], at the subscript of the
    message.  Either way it issues one request and neither prints nor
    sleeps. *)
Theorem argmax_returns_first_token
    (encoding_for_model : string -> result Encoding) (self : OpenAIModel)
    (prefix : string) (logit_bias : option (option LogitBias)) (t : list event)
    (enc : Encoding) (output : string) (others : list string) :
  encoding_for_model (model self) = Return enc ->
  argmax_outputs self prefix (bind_default default_logit_bias logit_bias)
    (length (calls t)) = Return (output :: others) ->
  (String.eqb (model self) "gpt-3.5-turbo-instruct" = true ->
   forall eos tok toks rest,
     encode enc special_tokens "<|endoftext|>" = Return (eos :: toks) ->
     encode enc [] output = Return (tok :: rest) ->
     OpenAIModel_argmax encoding_for_model self prefix logit_bias t
     = (Return tok,
        t ++ [ApiCall (argmax_request self prefix
                         (bind_default default_logit_bias logit_bias))]))
  /\ (String.eqb (model self) "gpt-3.5-turbo-instruct" = false ->
      OpenAIModel_argmax encoding_for_model self prefix logit_bias t
      = (Raise TypeError,
         t ++ [ApiCall (argmax_request self prefix
                          (bind_default default_logit_bias logit_bias))])).
Proof.
  intros Henc Hout. split.
  - intros Hm eos tok toks rest Heos Htok.
    rewrite (argmax_run_completions _ _ _ _ _ _ Henc Hm).
    rewrite Hout. simpl. rewrite Heos. simpl. unfold first_token.
    now rewrite Htok.
  - intros Hm. rewrite (argmax_run_chat _ _ _ _ _ _ Henc Hm). now rewrite Hout.
Qed.

(** Runs of X1: the answer "a" re-encodes to token 97 on the completions
    branch, and is not reached on the chat branch. *)
Lemma argmax_returns_first_token_run :
  OpenAIModel_argmax stub_encoding_for_model
    (stub_model "gpt-3.5-turbo-instruct" noisy_client) "p" None []
  = (Return 97,
     [ApiCall (argmax_request (stub_model "gpt-3.5-turbo-instruct" noisy_client)
                 "p" (Some ∅))])
  /\ OpenAIModel_argmax stub_encoding_for_model (stub_model "gpt-4" noisy_client)
       "p" None []
     = (Raise TypeError,
        [ApiCall (argmax_request (stub_model "gpt-4" noisy_client) "p" (Some ∅))]).
Proof.
  split.
  - apply (proj1 (argmax_returns_first_token stub_encoding_for_model
                    (stub_model "gpt-3.5-turbo-instruct" noisy_client) "p" None []
                    byte_encoding "a" [] eq_refl eq_refl) eq_refl
             60 97 ((fun c => Z.of_nat (nat_of_ascii c))
                      <$> list_ascii_of_string "|endoftext|>") []);
      reflexivity.
  - apply (proj2 (argmax_returns_first_token stub_encoding_for_model
                    (stub_model "gpt-4" noisy_client) "p" None []
                    byte_encoding "a" [] eq_refl eq_refl) eq_refl).
Defined.

(** X2.  [argmax] does not retry.  When the response has no choice it
    raises [IndexError], and when the client raises it raises the same
    exception, in both cases after its one request and without a sleep. *)
Theorem argmax_does_not_retry
    (encoding_for_model : string -> result Encoding) (self : OpenAIModel)
    (prefix : string) (logit_bias : option (option LogitBias)) (t : list event)
    (enc : Encoding) :
  encoding_for_model (model self) = Return enc ->
  (argmax_outputs self prefix (bind_default default_logit_bias logit_bias)
     (length (calls t)) = Return [] ->
   OpenAIModel_argmax encoding_for_model self prefix logit_bias t
   = (Raise IndexError,
      t ++ [ApiCall (argmax_request self prefix
                       (bind_default default_logit_bias logit_bias))]))
  /\ (forall e,
        argmax_outputs self prefix (bind_default default_logit_bias logit_bias)
          (length (calls t)) = Raise e ->
        OpenAIModel_argmax encoding_for_model self prefix logit_bias t
        = (Raise e,
           t ++ [ApiCall (argmax_request self prefix
                            (bind_default default_logit_bias logit_bias))])).
Proof.
  intros Henc. destruct (String.eqb (model self) "gpt-3.5-turbo-instruct") eqn:Hm.
  - rewrite (argmax_run_completions _ _ _ _ _ _ Henc Hm).
    split; [intros Hout|intros e Hout]; now rewrite Hout.
  - rewrite (argmax_run_chat _ _ _ _ _ _ Henc Hm).
    split; [intros Hout|intros e Hout]; now rewrite Hout.
Qed.

(** A run of X2: an empty response, where [topk] would sleep and retry. *)
Lemma argmax_does_not_retry_run :
  OpenAIModel_argmax stub_encoding_for_model (stub_model "gpt-4" empty_client) "p" None []
  = (Raise IndexError,
     [ApiCall (argmax_request (stub_model "gpt-4" empty_client) "p" (Some ∅))]).
Proof.
  apply (proj1 (argmax_does_not_retry stub_encoding_for_model
                  (stub_model "gpt-4" empty_client) "p" None [] byte_encoding eq_refl)).
  reflexivity.
Defined.

(** X3.  [argmax] uses the completions endpoint for the identifier
    "gpt-3.5-turbo-instruct" alone.  For every other identifier it issues a
    chat request: for the other members of the legacy tuple, which [topk]
    sends to the completions endpoint, and for the identifiers of neither
    family, which [topk] rejects without a request. *)
Theorem argmax_dispatch_differs_from_topk
    (encoding_for_model : string -> result Encoding) (self : OpenAIModel)
    (prefix : string) (logit_bias : option (option LogitBias)) (t : list event)
    (enc : Encoding) :
  encoding_for_model (model self) = Return enc ->
  String.eqb (model self) "gpt-3.5-turbo-instruct" = false ->
  (exists kw,
      (OpenAIModel_argmax encoding_for_model self prefix logit_bias t).2
      = t ++ [ApiCall (ChatCompletionsCreate kw)])
  /\ (in_tuple (model self) legacy_models = true ->
      exists kw,
        (topk_dispatch self prefix (bind_default default_logit_bias logit_bias) t).2
        = t ++ [ApiCall (CompletionsCreate kw)])
  /\ (in_tuple (model self) legacy_models = false ->
      startswith (model self) "gpt-4" || startswith (model self) "gpt-3" = false ->
      exists msg,
        topk_dispatch self prefix (bind_default default_logit_bias logit_bias) t
        = (Raise (NotImplementedError msg), t)).
Proof.
  intros Henc Hm. split; [|split].
  - rewrite (argmax_trace _ _ _ _ _ _ Henc). unfold argmax_request. rewrite Hm.
    now eexists.
  - intros Hlegacy. unfold topk_dispatch. rewrite Hlegacy.
    rewrite instruct_logprobs_request. now eexists.
  - intros Hlegacy Hchat. unfold topk_dispatch. rewrite Hlegacy, Hchat.
    now eexists.
Qed.

(** A run of X3: "davinci-002" is in the legacy tuple. *)
Lemma argmax_dispatch_davinci_run :
  (exists kw,
      (OpenAIModel_argmax stub_encoding_for_model
         (stub_model "davinci-002" noisy_client) "p" None []).2
      = [] ++ [ApiCall (ChatCompletionsCreate kw)])
  /\ (exists kw,
        (topk_dispatch (stub_model "davinci-002" noisy_client) "p" (Some ∅) []).2
        = [] ++ [ApiCall (CompletionsCreate kw)]).
Proof.
  destruct (argmax_dispatch_differs_from_topk stub_encoding_for_model
              (stub_model "davinci-002" noisy_client) "p" None [] byte_encoding
              eq_refl eq_refl) as (Hargmax & Htopk & _).
  split; [exact Hargmax|exact (Htopk eq_refl)].
Defined.

Lemma init_encoding encoding_for_model OpenAI environ name system self :
  __init__ encoding_for_model OpenAI environ name system = Return self ->
  encoding_for_model (model self) = Return (encoding self).
Proof.
  unfold __init__, mbind, result_bind.
  destruct (encoding_for_model name) as [enc|e] eqn:Henc; [|discriminate].
  destruct (environ !! _); [|discriminate].
  intros [= <-]. exact Henc.
Qed.

(** X4.  Whatever the client answers, [argmax] adds at most its one request
    to the trace, and no message and no sleep; for a model built by the
    constructor it adds exactly that request, since the tokenizer lookup it
    repeats succeeded in the constructor. *)
Theorem argmax_issues_one_request
    (encoding_for_model : string -> result Encoding) (self : OpenAIModel)
    (prefix : string) (logit_bias : option (option LogitBias)) (t : list event) :
  ((OpenAIModel_argmax encoding_for_model self prefix logit_bias t).2 = t
   \/ (OpenAIModel_argmax encoding_for_model self prefix logit_bias t).2
      = t ++ [ApiCall (argmax_request self prefix
                         (bind_default default_logit_bias logit_bias))])
  /\ (forall OpenAI environ name system,
        __init__ encoding_for_model OpenAI environ name system = Return self ->
        (OpenAIModel_argmax encoding_for_model self prefix logit_bias t).2
        = t ++ [ApiCall (argmax_request self prefix
                           (bind_default default_logit_bias logit_bias))]).
Proof.
  split.
  - destruct (encoding_for_model (model self)) as [enc|e] eqn:Henc.
    + right. exact (argmax_trace _ _ _ _ _ _ Henc).
    + left. now rewrite (argmax_unknown_tokenizer _ _ _ _ _ _ Henc).
  - intros OpenAI environ name system Hinit.
    exact (argmax_trace _ _ _ _ _ _ (init_encoding _ _ _ _ _ _ Hinit)).
Qed.

(** X5.  A [logit_bias] dict the caller supplies is passed on unchanged in
    every request of [argmax] and of [topk]. *)
Theorem supplied_logit_bias_is_forwarded
    (encoding_for_model : string -> result Encoding) (self : OpenAIModel)
    (prefix : string) (bias : LogitBias) (t : list event) :
  requests_carry (OpenAIModel_argmax encoding_for_model self prefix (Some (Some bias)))
    t (Some bias)
  /\ requests_carry (OpenAIModel_topk self prefix (Some (Some bias))) t (Some bias).
Proof.
  split.
  - apply (argmax_requests encoding_for_model self prefix (Some (Some bias))).
  - apply (topk_requests self prefix (Some (Some bias))).
Qed.

(** ** Bounds on what [topk] does *)

Lemma total_app (l1 l2 : list Z) : total (l1 ++ l2) = total l1 + total l2.
Proof.
  unfold total. induction l1 as [|x l1 IH]; simpl; [reflexivity|]. rewrite IH. lia.
Qed.

Lemma total_backoff (n : nat) :
  total ((fun i => 10 * (i + 1)) <$> seqZ 0 (Z.of_nat n))
  = 5 * Z.of_nat n * (Z.of_nat n + 1).
Proof.
  induction n as [|n IH]; [reflexivity|].
  replace (Z.of_nat (S n)) with (Z.of_nat n + 1) by lia.
  rewrite seqZ_app by lia. rewrite fmap_app, total_app, IH.
  rewrite (seqZ_cons _ 1) by lia. rewrite seqZ_nil by lia.
  unfold total. simpl. lia.
Qed.

Lemma total_nonneg (l : list Z) : Forall (fun x => 0 <= x) l -> 0 <= total l.
Proof.
  unfold total. induction 1 as [|x l Hx _ IH]; simpl; lia.
Qed.

Lemma total_prefix (l1 l2 : list Z) :
  l1 `prefix_of` l2 -> Forall (fun x => 0 <= x) l2 -> total l1 <= total l2.
Proof.
  intros [k ->] Hall. apply Forall_app in Hall as [_ Hk].
  rewrite total_app. pose proof (total_nonneg k Hk). lia.
Qed.

Lemma backoff_nonneg (n : Z) :
  Forall (fun x => 0 <= x) ((fun i => 10 * (i + 1)) <$> seqZ 0 n).
Proof.
  apply Forall_fmap, Forall_forall. intros i Hi.
  apply list_elem_of_lookup in Hi as [k Hk]. apply lookup_seqZ in Hk. simpl. lia.
Qed.

Section LoopShape.
Variables (self : OpenAIModel) (prefix : string) (logit_bias : option LogitBias).
Variable req : request.
Hypothesis Hreq :
  forall t, (topk_dispatch self prefix logit_bias t).2 = t ++ [ApiCall req].

(** Whatever the attempts yield, the loop over [xs] issues at most one
    request per element of [xs], all of them [req], and sleeps after the
    first [j] of them, for some [j], with the delays of these attempts. *)
Lemma loop_shape (xs : list Z) : forall t,
  exists (j : nat) evs,
    (for_return xs (topk_attempt self prefix logit_bias) t).2 = t ++ evs
    /\ sleeps evs = (fun i => 10 * (i + 1)) <$> take j xs
    /\ (length (calls evs) <= length xs)%nat
    /\ (length (sleeps evs) <= length (calls evs))%nat
    /\ Forall (fun r => r = req) (calls evs).
Proof.
  induction xs as [|i xs IH]; intros t.
  - exists O, []. simpl. rewrite app_nil_r.
    split; [reflexivity|]. split; [reflexivity|]. repeat split; [lia..|constructor].
  - simpl. assert (Ht := Hreq t).
    destruct (topk_dispatch self prefix logit_bias t) as [[d|e] t1] eqn:Hd;
      simpl in Ht; subst t1.
    + rewrite (bind_Return _ _ _ _ _ (topk_attempt_returns _ _ _ i _ _ _ Hd)).
      exists O, [ApiCall req]. simpl.
      split; [reflexivity|]. split; [reflexivity|].
      repeat split; [lia..|repeat constructor].
    + destruct (isinstance_IndexError e) eqn:He.
      * destruct e; try discriminate He.
        rewrite (bind_Return _ _ _ _ _ (topk_attempt_caught _ _ _ i _ _ Hd)).
        destruct (IH ((t ++ [ApiCall req])
                        ++ [Print (backoff_message i); Sleep (10 * (i + 1))]))
          as (j & evs & Hevs & Hsl & Hcalls & Hle & Hall).
        exists (S j), (caught_attempt req i ++ evs).
        rewrite Hevs, <- !app_assoc, sleeps_app, calls_app.
        split; [reflexivity|]. split; [simpl; now rewrite Hsl|].
        simpl. repeat split; [lia..|now constructor].
      * rewrite (bind_Raise _ _ _ _ _ (topk_attempt_propagates _ _ _ i _ _ _ Hd He)).
        exists O, [ApiCall req]. simpl.
        split; [reflexivity|]. split; [reflexivity|].
        repeat split; [lia..|repeat constructor].
Qed.
End LoopShape.

(** The same for [topk] itself, with the identifiers of neither family
    included, for which there is no request at all. *)
Lemma topk_run_shape self prefix logit_bias t :
  exists req evs,
    (OpenAIModel_topk self prefix logit_bias t).2 = t ++ evs
    /\ sleeps evs `prefix_of`
         ((fun i => 10 * (i + 1)) <$> range (max_api_retries self))
    /\ (length (calls evs) <= Z.to_nat (max_api_retries self))%nat
    /\ (length (sleeps evs) <= length (calls evs))%nat
    /\ Forall (fun r => r = req) (calls evs)
    /\ request_logit_bias req = bind_default default_logit_bias logit_bias.
Proof.
  destruct (topk_dispatch_cases self prefix (bind_default default_logit_bias logit_bias))
    as [[msg Hn]|(req & Hb & _ & Hreq)].
  - exists (argmax_request self prefix (bind_default default_logit_bias logit_bias)), [].
    rewrite app_nil_r. split; [|split; [apply prefix_nil|]].
    + unfold OpenAIModel_topk.
      destruct (range (max_api_retries self)) as [|i xs]; [reflexivity|]. simpl.
      now rewrite (bind_Raise _ _ _ _ _
                     (topk_attempt_propagates _ _ _ i _ _ _ (Hn t) eq_refl)).
    + simpl. repeat split; [lia..|constructor|].
      unfold argmax_request. now destruct (String.eqb _ _).
  - destruct (loop_shape self prefix _ req Hreq (range (max_api_retries self)) t)
      as (j & evs & Hevs & Hsl & Hcalls & Hle & Hall).
    exists req, evs. rewrite range_length in Hcalls.
    repeat split; try assumption.
    rewrite Hsl, fmap_take. apply prefix_take.
Qed.

(** X6.  Whatever the backend does, a call of [topk] issues at most
    [max_api_retries] requests, all of them the same request, and sleeps at
    most once per request, with delays that are an initial part of 10, 20,
    30, ...: the time it sleeps is at most [5 * n * (n + 1)] for a budget of
    [n] attempts. *)
Theorem topk_is_bounded
    (self : OpenAIModel) (prefix : string) (logit_bias : option (option LogitBias))
    (t : list event) :
  exists req evs,
    (OpenAIModel_topk self prefix logit_bias t).2 = t ++ evs
    /\ (length (calls evs) <= Z.to_nat (max_api_retries self))%nat
    /\ Forall (fun r => r = req) (calls evs)
    /\ (length (sleeps evs) <= length (calls evs))%nat
    /\ sleeps evs `prefix_of`
         ((fun i => 10 * (i + 1)) <$> range (max_api_retries self))
    /\ total (sleeps evs)
       <= 5 * Z.of_nat (Z.to_nat (max_api_retries self))
          * (Z.of_nat (Z.to_nat (max_api_retries self)) + 1).
Proof.
  destruct (topk_run_shape self prefix logit_bias t)
    as (req & evs & Hevs & Hpre & Hcalls & Hle & Hall & _).
  exists req, evs. repeat split; try assumption.
  rewrite <- total_backoff, <- range_nat.
  apply total_prefix; [exact Hpre|apply backoff_nonneg].
Qed.

(** X7.  For a model built by the constructor the budget is 5: a call of
    [topk] issues at most 5 requests and sleeps at most 150 seconds in
    all. *)
Theorem topk_budget_of_constructed_model
    (encoding_for_model : string -> result Encoding) (OpenAI : string -> Client)
    (environ : gmap string string) (name : string) (system : option string)
    (self : OpenAIModel) (prefix : string) (logit_bias : option (option LogitBias))
    (t : list event) :
  __init__ encoding_for_model OpenAI environ name system = Return self ->
  exists evs,
    (OpenAIModel_topk self prefix logit_bias t).2 = t ++ evs
    /\ (length (calls evs) <= 5)%nat
    /\ total (sleeps evs) <= 150.
Proof.
  intros Hinit. destruct (init_fields _ _ _ _ _ _ Hinit) as [_ Hmax].
  destruct (topk_run_shape self prefix logit_bias t)
    as (req & evs & Hevs & Hpre & Hcalls & _).
  rewrite Hmax in Hpre, Hcalls. exists evs. repeat split; [exact Hevs|exact Hcalls|].
  change 150 with (total ((fun i => 10 * (i + 1)) <$> range 5)).
  apply total_prefix; [exact Hpre|apply backoff_nonneg].
Qed.

(** A run of X7. *)
Lemma topk_budget_run :
  exists evs,
    (OpenAIModel_topk (stub_model "gpt-4" noisy_client) "p" None []).2 = [] ++ evs
    /\ (length (calls evs) <= 5)%nat
    /\ total (sleeps evs) <= 150.
Proof.
  apply (topk_budget_of_constructed_model stub_encoding_for_model stub_OpenAI
           stub_environ "gpt-4" None (stub_model "gpt-4" noisy_client) "p" None []).
  reflexivity.
Defined.

(** ** More on the normalizers *)

Lemma dict_comp_from_raises_at {X V} (entry : X -> result (Z * V))
    (before : list X) (x : X) (after : list X) (e : exn) : forall acc,
  Forall (fun x' => exists kv, entry x' = Return kv) before ->
  entry x = Raise e ->
  dict_comp_from entry (before ++ x :: after) acc = Raise e.
Proof.
  induction before as [|x' before IH]; intros acc Hbefore Hx; simpl.
  - now rewrite Hx.
  - apply Forall_cons in Hbefore as [[kv Hkv] Hbefore]. rewrite Hkv. simpl.
    now apply IH.
Qed.

(** X8.  A response with a text that re-encodes to no token at all is
    treated like an empty response: the normalizer raises [IndexError] at
    that text, [topk] catches it, prints, sleeps [10 * (i + 1)] and goes on
    to the next attempt, and the entries that did encode are lost. *)
Theorem topk_retries_on_text_without_token
    (self : OpenAIModel) (prefix : string) (logit_bias : option LogitBias)
    (i : Z) (t : list event) (response : Completion) (choice : CompletionChoice)
    (others : list CompletionChoice) (before after : list (string * float))
    (x : string) (y : float) (positions : list (list (string * float))) :
  in_tuple (model self) legacy_models = true ->
  completions_create (client self) (length (calls t))
    {| c_model := model self; c_prompt := prefix; c_temperature := 1;
       c_max_tokens := 1; c_logit_bias := logit_bias; c_n := None;
       c_logprobs := Some 5 |} = Return response ->
  completion_choices response = choice :: others ->
  choice_logprobs choice = Some ((before ++ (x, y) :: after) :: positions) ->
  (forall x' y', (x', y') ∈ before ->
                 exists tok, first_token (encoding self) x' = Return tok) ->
  encode (encoding self) [] x = Return [] ->
  instruct_normalize self response = Raise IndexError
  /\ topk_attempt self prefix logit_bias i t
     = (Return None,
        t ++ [ApiCall (CompletionsCreate
                         {| c_model := model self; c_prompt := prefix;
                            c_temperature := 1; c_max_tokens := 1;
                            c_logit_bias := logit_bias; c_n := None;
                            c_logprobs := Some 5 |});
              Print (backoff_message i); Sleep (10 * (i + 1))]).
Proof.
  intros Hlegacy Hcreate Hc Hl Hbefore Hx.
  assert (Hnorm : instruct_normalize self response = Raise IndexError).
  { unfold instruct_normalize. rewrite Hc. simpl. rewrite Hl. simpl.
    apply dict_comp_from_raises_at.
    - apply Forall_forall. intros [x' y'] Hin.
      destruct (Hbefore x' y' Hin) as [tok Htok]. rewrite Htok. now eexists.
    - unfold first_token. now rewrite Hx. }
  split; [exact Hnorm|].
  assert (Hd : topk_dispatch self prefix logit_bias t
               = (Raise IndexError,
                  t ++ [ApiCall (CompletionsCreate
                           {| c_model := model self; c_prompt := prefix;
                              c_temperature := 1; c_max_tokens := 1;
                              c_logit_bias := logit_bias; c_n := None;
                              c_logprobs := Some 5 |})])).
  { rewrite (surjective_pairing (topk_dispatch self prefix logit_bias t)). f_equal.
    - rewrite (instruct_attempt_yields self prefix logit_bias _ Hlegacy t eq_refl).
      rewrite Hcreate. exact Hnorm.
    - unfold topk_dispatch. rewrite Hlegacy. apply instruct_logprobs_request. }
  rewrite (topk_attempt_caught _ _ _ i _ _ Hd). now rewrite <- app_assoc.
Qed.

(** A run of X8: the text "a" and then the empty text. *)
Lemma topk_retries_on_empty_text :
  instruct_normalize (stub_model "davinci-002" blank_entry_client)
    (completion_of [("a"%string, (-0.1)%float); (EmptyString, (-0.2)%float)])
  = Raise IndexError
  /\ exists req,
       topk_attempt (stub_model "davinci-002" blank_entry_client) "p" (Some ∅) 0 []
       = (Return None,
          [ApiCall req; Print "OpenAI API call fail; sleeping for 10 seconds"; Sleep 10]).
Proof.
  destruct (topk_retries_on_text_without_token
              (stub_model "davinci-002" blank_entry_client) "p" (Some ∅) 0 []
              (completion_of [("a"%string, (-0.1)%float); (EmptyString, (-0.2)%float)])
              {| choice_text := "a";
                 choice_logprobs :=
                   Some [[("a"%string, (-0.1)%float); (EmptyString, (-0.2)%float)]] |}
              [] [("a"%string, (-0.1)%float)] [] EmptyString (-0.2)%float []
              eq_refl eq_refl eq_refl eq_refl) as [Hnorm Hattempt].
  - intros x' y' Hin. apply list_elem_of_singleton in Hin as [= -> ->].
    exists 97. reflexivity.
  - reflexivity.
  - split; [exact Hnorm|]. eexists. exact Hattempt.
Defined.

(** X9.  The two response shapes normalize alike: a chat response and a
    completion response that carry the same texts with the same
    log-probabilities, in the same order, give the same map, or the same
    exception. *)
Theorem both_shapes_normalize_alike
    (self : OpenAIModel) (chat : ChatCompletion) (completion : Completion)
    (hc : ChatChoice) (hothers : list ChatChoice)
    (cc : CompletionChoice) (cothers : list CompletionChoice)
    (raw : list TopLogprob) (hpositions : list (list TopLogprob))
    (cpositions : list (list (string * float))) :
  chat_choices chat = hc :: hothers ->
  chat_logprobs hc = Some (raw :: hpositions) ->
  completion_choices completion = cc :: cothers ->
  choice_logprobs cc
  = Some (((fun lp => (token lp, logprob lp)) <$> raw) :: cpositions) ->
  chat_normalize self chat = instruct_normalize self completion.
Proof.
  intros Hh Hhl Hc Hcl. unfold chat_normalize, instruct_normalize.
  rewrite Hh, Hc. simpl. rewrite Hhl, Hcl. simpl.
  unfold dict_comp. rewrite dict_comp_from_fmap.
  now destruct (dict_comp_from _ raw ∅).
Qed.

(** A run of X9. *)
Lemma both_shapes_normalize_alike_run :
  chat_normalize (stub_model "gpt-4" noisy_client)
    (chat_completion_of [(text7, (-0.5)%float); ("a"%string, (-0.1)%float)])
  = instruct_normalize (stub_model "gpt-4" noisy_client)
      (completion_of [(text7, (-0.5)%float); ("a"%string, (-0.1)%float)]).
Proof.
  apply (both_shapes_normalize_alike (stub_model "gpt-4" noisy_client)
           (chat_completion_of [(text7, (-0.5)%float); ("a"%string, (-0.1)%float)])
           (completion_of [(text7, (-0.5)%float); ("a"%string, (-0.1)%float)])
           {| message_content := "a";
              chat_logprobs :=
                Some [[ {| token := text7; logprob := (-0.5)%float |};
                        {| token := "a"; logprob := (-0.1)%float |} ]] |}
           []
           {| choice_text := "a";
              choice_logprobs :=
                Some [[(text7, (-0.5)%float); ("a"%string, (-0.1)%float)]] |}
           []
           [ {| token := text7; logprob := (-0.5)%float |};
             {| token := "a"; logprob := (-0.1)%float |} ] [] []);
    reflexivity.
Defined.

Lemma size_inserts {V} (kvs : list (Z * V)) : forall acc : gmap Z V,
  (size (foldl (fun (m : gmap Z V) kv => <[kv.1 := kv.2]> m) acc kvs)
   <= size acc + length kvs)%nat.
Proof.
  induction kvs as [|[k v] kvs IH]; intros acc; simpl; [lia|].
  specialize (IH (<[k := v]> acc)). rewrite map_size_insert in IH.
  destruct (acc !! k); simpl in IH; lia.
Qed.

Lemma inserts_nonempty {V} (kvs : list (Z * V)) : forall acc : gmap Z V,
  kvs <> [] ->
  foldl (fun (m : gmap Z V) kv => <[kv.1 := kv.2]> m) acc kvs <> ∅.
Proof.
  induction kvs as [|[k v] kvs IH]; intros acc Hne; [congruence|]. simpl.
  destruct kvs as [|kv kvs]; [apply insert_non_empty|]. now apply IH.
Qed.

Lemma dict_comp_size {X} (entry : X -> result (Z * float)) (xs : list X) d :
  dict_comp entry xs = Return d ->
  (size d <= length xs)%nat /\ (xs <> [] -> d <> ∅).
Proof.
  intros Hd. apply dict_comp_from_inv in Hd as (kvs & Hall & ->).
  apply Forall2_length in Hall. split.
  - pose proof (size_inserts kvs ∅) as Hs. rewrite map_size_empty in Hs. lia.
  - intros Hne. apply inserts_nonempty. intros ->. now destruct xs.
Qed.

(** X10.  The map a normalizer returns has at most one key per entry of the
    response, and at least one key when the response has an entry; this
    holds for both shapes. *)
Theorem normalizer_size_bound (self : OpenAIModel) :
  (forall response choice others entries positions d,
      completion_choices response = choice :: others ->
      choice_logprobs choice = Some (entries :: positions) ->
      instruct_normalize self response = Return d ->
      (size d <= length entries)%nat /\ (entries <> [] -> d <> ∅))
  /\ (forall response choice others raw positions d,
        chat_choices response = choice :: others ->
        chat_logprobs choice = Some (raw :: positions) ->
        chat_normalize self response = Return d ->
        (size d <= length raw)%nat /\ (raw <> [] -> d <> ∅)).
Proof.
  split.
  - intros response choice others entries positions d Hc Hl.
    unfold instruct_normalize. rewrite Hc. simpl. rewrite Hl. simpl.
    apply dict_comp_size.
  - intros response choice others raw positions d Hc Hl.
    unfold chat_normalize. rewrite Hc. simpl. rewrite Hl. simpl.
    destruct (dict_comp _ raw) as [d'|e] eqn:Hd; simpl; [|discriminate].
    intros [= <-]. exact (dict_comp_size _ _ _ Hd).
Qed.

(** A run of X10: two texts with the same first token give one key. *)
Lemma normalizer_size_run :
  exists d,
    instruct_normalize (stub_model "davinci-002" colliding_client)
      (completion_of [("a"%string, (-0.1)%float); ("ab"%string, (-0.5)%float)])
    = Return d
    /\ (size d <= 2)%nat /\ d <> ∅.
Proof.
  exists {[ 97 := (-0.5)%float ]}.
  destruct (proj1 (normalizer_size_bound (stub_model "davinci-002" colliding_client))
              (completion_of [("a"%string, (-0.1)%float); ("ab"%string, (-0.5)%float)])
              {| choice_text := "a";
                 choice_logprobs :=
                   Some [[("a"%string, (-0.1)%float); ("ab"%string, (-0.5)%float)]] |}
              [] [("a"%string, (-0.1)%float); ("ab"%string, (-0.5)%float)] []
              {[ 97 := (-0.5)%float ]} eq_refl eq_refl eq_refl) as [Hsize Hne].
  split; [reflexivity|]. split; [exact Hsize|]. apply Hne. discriminate.
Defined.

(** ** More on the aggregators *)

Lemma list_comp_raises {X A} (body : X -> M A) (xs : list X) (y : X) (ys : list X) :
  forall t l t1 e t2,
    list_comp xs body t = (Return l, t1) ->
    body y t1 = (Raise e, t2) ->
    list_comp (xs ++ y :: ys) body t = (Raise e, t2).
Proof.
  induction xs as [|x xs IH]; intros t l t1 e t2; simpl.
  - intros [= _ <-] Hy. now rewrite (bind_Raise _ _ _ _ _ Hy).
  - unfold mbind at 1 3, M_bind. destruct (body x t) as [[a|e'] t0]; [|discriminate].
    unfold mbind at 1 2, M_bind.
    destruct (list_comp xs body t0) as [[l'|e'] t0'] eqn:Hxs; [|discriminate].
    intros [= _ <-] Hy. now rewrite (IH _ _ _ _ _ Hxs Hy).
Qed.

Lemma range_split (k : Z) (j : nat) :
  Z.of_nat j < k ->
  range k = seqZ 0 (Z.of_nat j) ++ Z.of_nat j :: seqZ (Z.of_nat j + 1) (k - Z.of_nat j - 1).
Proof.
  intros Hj. unfold range.
  replace k with (Z.of_nat j + (k - Z.of_nat j)) at 1 by lia.
  rewrite seqZ_app by lia. rewrite (seqZ_cons _ (k - Z.of_nat j)) by lia.
  do 3 f_equal; lia.
Qed.

Section AggregateFailures.
Context {Self : Type} `{Model Self}.

(** X11.  When one of the [k] queries raises, after [j] queries that
    returned, the aggregate raises the same exception at that point: the
    remaining queries are not issued and nothing is aggregated.  For
    [median_argmax] this exception takes the place of its [TypeError]. *)
Theorem aggregate_stops_at_failing_query
    (self : Self) (k : Z) (prefix : string) (logit_bias : option (option LogitBias))
    (j : nat) (e : exn) (t t1 t2 : list event) :
  Z.of_nat j < k ->
  (forall maps,
      list_comp (seqZ 0 (Z.of_nat j)) (fun _ => topk self prefix logit_bias) t
      = (Return maps, t1) ->
      topk self prefix logit_bias t1 = (Raise e, t2) ->
      median_topk self k prefix logit_bias t = (Raise e, t2))
  /\ (forall tokens,
        list_comp (seqZ 0 (Z.of_nat j)) (fun _ => argmax self prefix logit_bias) t
        = (Return tokens, t1) ->
        argmax self prefix logit_bias t1 = (Raise e, t2) ->
        median_argmax self k prefix logit_bias t = (Raise e, t2)).
Proof.
  intros Hj. split.
  - intros maps Hdone Hfail. unfold median_topk. apply bind_Raise.
    rewrite (range_split k j Hj).
    exact (list_comp_raises _ _ _ _ _ _ _ _ _ Hdone Hfail).
  - intros tokens Hdone Hfail. unfold median_argmax. apply bind_Raise.
    rewrite (range_split k j Hj).
    exact (list_comp_raises _ _ _ _ _ _ _ _ _ Hdone Hfail).
Qed.

(** X12.  With [k <= 0] no query is issued: [median_topk] raises
    [IndexError] at [results[0]] and [median_argmax] raises [TypeError]. *)
Theorem aggregate_without_queries
    (self : Self) (k : Z) (prefix : string) (logit_bias : option (option LogitBias))
    (t : list event) :
  k <= 0 ->
  median_topk self k prefix logit_bias t = (Raise IndexError, t)
  /\ median_argmax self k prefix logit_bias t = (Raise TypeError, t).
Proof.
  intros Hk. unfold median_topk, median_argmax, range.
  rewrite seqZ_nil by exact Hk. split; reflexivity.
Qed.

(** X13.  The first result decides what the others are used for.  When it
    is [None], [median_topk] raises [AttributeError]; when it is the empty
    map, [median_topk] returns the empty map, whatever the other results
    are.  Both happen after all [k] queries have been made. *)
Theorem first_result_decides
    (self : Self) (k : Z) (prefix : string) (logit_bias : option (option LogitBias))
    (t t' : list event) (first : option LogProbMap) (others : list (option LogProbMap)) :
  list_comp (range k) (fun _ => topk self prefix logit_bias) t
  = (Return (first :: others), t') ->
  (first = None -> median_topk self k prefix logit_bias t = (Raise AttributeError, t'))
  /\ (first = Some ∅ -> median_topk self k prefix logit_bias t = (Return ∅, t')).
Proof.
  intros Hlist. unfold median_topk. rewrite (bind_Return _ _ _ _ _ Hlist).
  split; intros ->; unfold lift; simpl; [reflexivity|].
  now rewrite map_to_list_empty.
Qed.
End AggregateFailures.

(** A run of X11: the backend is offline, and of three queries one is
    made. *)
Lemma aggregate_offline_run :
  median_topk (H := OpenAIModel_Model stub_encoding_for_model)
    (stub_model "gpt-4" offline_client) 3 "p" None []
  = (Raise (OpenAIError "APIConnectionError"),
     (OpenAIModel_topk (stub_model "gpt-4" offline_client) "p" None []).2)
  /\ length (calls (OpenAIModel_topk (stub_model "gpt-4" offline_client) "p" None []).2)
     = 1%nat.
Proof.
  split; [|reflexivity].
  apply (proj1 (aggregate_stops_at_failing_query
                  (H := OpenAIModel_Model stub_encoding_for_model)
                  (stub_model "gpt-4" offline_client) 3 "p" None 0
                  (OpenAIError "APIConnectionError") [] []
                  (OpenAIModel_topk (stub_model "gpt-4" offline_client) "p" None []).2
                  ltac:(lia)) []);
    reflexivity.
Defined.

(** A run of X12. *)
Lemma aggregate_without_queries_run :
  median_topk (H := OpenAIModel_Model stub_encoding_for_model)
    (stub_model "gpt-4" noisy_client) 0 "p" None [] = (Raise IndexError, [])
  /\ median_argmax (H := OpenAIModel_Model stub_encoding_for_model)
       (stub_model "gpt-4" noisy_client) 0 "p" None [] = (Raise TypeError, []).
Proof.
  apply (aggregate_without_queries (H := OpenAIModel_Model stub_encoding_for_model)
           (stub_model "gpt-4" noisy_client) 0 "p" None []).
  lia.
Defined.

(** A run of X13: the first response has no entry, the later ones are
    empty, so that the second result is [None]. *)
Lemma first_result_empty_run :
  list_comp (range 2)
    (fun _ => OpenAIModel_topk (stub_model "gpt-4" hollow_client) "p" None) []
  = (Return [Some ∅; None],
     (list_comp (range 2)
        (fun _ => OpenAIModel_topk (stub_model "gpt-4" hollow_client) "p" None) []).2)
  /\ median_topk (H := OpenAIModel_Model stub_encoding_for_model)
       (stub_model "gpt-4" hollow_client) 2 "p" None []
     = (Return ∅,
        (list_comp (range 2)
           (fun _ => OpenAIModel_topk (stub_model "gpt-4" hollow_client) "p" None) []).2).
Proof.
  assert (Hrun : list_comp (range 2)
            (fun _ => OpenAIModel_topk (stub_model "gpt-4" hollow_client) "p" None) []
          = (Return [Some ∅; None],
             (list_comp (range 2)
                (fun _ => OpenAIModel_topk (stub_model "gpt-4" hollow_client) "p" None)
                []).2)).
  { vm_compute. reflexivity. }
  split; [exact Hrun|].
  exact (proj2 (first_result_decides (H := OpenAIModel_Model stub_encoding_for_model)
                  (stub_model "gpt-4" hollow_client) 2 "p" None [] _ _ _ Hrun) eq_refl).
Defined.

Lemma column_cases (results : list LogProbMap) (word : Z) :
  (exists column,
      list_comp_pure (Some <$> results) (fun r => getitem r word) = Return column)
  \/ list_comp_pure (Some <$> results) (fun r => getitem r word) = Raise KeyError.
Proof.
  induction results as [|r results IH]; [left; now exists []|].
  cbn [fmap list_fmap list_comp_pure getitem].
  change (list_fmap _ _ Some results) with (Some <$> results).
  destruct (r !! word) as [v|]; simpl; [|now right].
  destruct IH as [[column ->] | ->]; [left; now eexists|now right].
Qed.

Lemma column_KeyError (results : list LogProbMap) (word : Z) (r : LogProbMap) :
  r ∈ results -> r !! word = None ->
  list_comp_pure (Some <$> results) (fun r => getitem r word) = Raise KeyError.
Proof.
  intros Hin Hr. induction results as [|r' results IH]; [now apply not_elem_of_nil in Hin|].
  cbn [fmap list_fmap list_comp_pure getitem].
  change (list_fmap _ _ Some results) with (Some <$> results).
  apply elem_of_cons in Hin as [<-|Hin].
  - now rewrite Hr.
  - destruct (r' !! word) as [v|]; simpl; [|reflexivity]. now rewrite (IH Hin).
Qed.

Lemma dict_comp_from_raises {X V} (entry : X -> result (Z * V)) (e : exn)
    (xs : list X) : forall acc,
  Forall (fun x => (exists kv, entry x = Return kv) \/ entry x = Raise e) xs ->
  Exists (fun x => entry x = Raise e) xs ->
  dict_comp_from entry xs acc = Raise e.
Proof.
  induction xs as [|x xs IH]; intros acc Hall Hex; [now apply Exists_nil in Hex|].
  apply Forall_cons in Hall as [Hx Hall]. simpl.
  destruct Hx as [[kv Hkv]|Hx]; [|now rewrite Hx].
  rewrite Hkv. simpl. apply IH; [exact Hall|].
  apply Exists_cons in Hex as [Hex|Hex]; [congruence|exact Hex].
Qed.

Section KeyDrift.
Context {Self : Type} `{Model Self}.

(** X14.  When the [k] queries return maps and one of them lacks a key of
    the first one, [median_topk] raises [KeyError]: no map is returned, not
    even for the keys that all results share. *)
Theorem median_topk_missing_key
    (self : Self) (k : Z) (prefix : string) (logit_bias : option (option LogitBias))
    (t t' : list event) (results : list LogProbMap) (first r : LogProbMap) (word : Z) :
  list_comp (range k) (fun _ => topk self prefix logit_bias) t
  = (Return (Some <$> results), t') ->
  head results = Some first ->
  word ∈ dom first ->
  r ∈ results ->
  word ∉ dom r ->
  median_topk self k prefix logit_bias t = (Raise KeyError, t').
Proof.
  intros Hlist Hfirst Hword Hr Hmiss.
  unfold median_topk. rewrite (bind_Return _ _ _ _ _ Hlist). unfold lift. f_equal.
  destruct results as [|first' rest]; [discriminate|]. injection Hfirst as ->.
  set (entry := fun w : Z =>
         column ← list_comp_pure (Some <$> first :: rest) (fun r => getitem r w);
         med ← np_median_call [column];
         Return (w, med)).
  change (dict_comp entry (map_to_list first).*1 = Raise KeyError).
  apply dict_comp_from_raises.
  - apply Forall_forall. intros w _. unfold entry.
    destruct (column_cases (first :: rest) w) as [[column ->] | ->];
      [left; now eexists|now right].
  - apply Exists_exists. exists word. split.
    + apply elem_of_dom in Hword as [v Hv].
      apply list_elem_of_fmap. exists (word, v). split; [reflexivity|].
      now apply elem_of_map_to_list.
    + apply not_elem_of_dom in Hmiss. unfold entry.
      now rewrite (column_KeyError (first :: rest) word r Hr Hmiss).
Qed.
End KeyDrift.

(** A run of X14: token 7 in the first result, token 97 in the second. *)
Lemma median_topk_missing_key_run :
  median_topk (H := OpenAIModel_Model stub_encoding_for_model)
    (stub_model "gpt-4" drifting_client) 2 "p" None []
  = (Raise KeyError,
     (list_comp (range 2)
        (fun _ => OpenAIModel_topk (stub_model "gpt-4" drifting_client) "p" None) []).2).
Proof.
  apply (median_topk_missing_key (H := OpenAIModel_Model stub_encoding_for_model)
           (stub_model "gpt-4" drifting_client) 2 "p" None [] _
           [ {[ 7 := (-0.1)%float ]}; {[ 97 := (-0.3)%float ]} ]
           {[ 7 := (-0.1)%float ]} {[ 97 := (-0.3)%float ]} 7).
  - vm_compute. reflexivity.
  - reflexivity.
  - rewrite dom_singleton_L. now apply elem_of_singleton.
  - right. left.
  - rewrite dom_singleton_L. intros Hin. apply elem_of_singleton in Hin. discriminate.
Defined.

(** ** Bounds on what the aggregators do *)

Lemma list_comp_bound {X A} (body : X -> M A) (m : nat) (s : Z) :
  0 <= s ->
  (forall x t, exists evs,
      (body x t).2 = t ++ evs
      /\ (length (calls evs) <= m)%nat /\ total (sleeps evs) <= s) ->
  forall xs t, exists evs,
    (list_comp xs body t).2 = t ++ evs
    /\ (length (calls evs) <= length xs * m)%nat
    /\ total (sleeps evs) <= Z.of_nat (length xs) * s.
Proof.
  intros Hs Hbody. induction xs as [|x xs IH]; intros t.
  - exists []. simpl. rewrite app_nil_r. repeat split; [lia|]. unfold total. simpl. lia.
  - destruct (Hbody x t) as (evs1 & Hevs1 & Hc1 & Hs1). simpl.
    unfold mbind at 1, M_bind.
    destruct (body x t) as [[a|e] t1]; simpl in Hevs1; subst t1.
    + destruct (IH (t ++ evs1)) as (evs2 & Hevs2 & Hc2 & Hs2).
      exists (evs1 ++ evs2). rewrite app_assoc, <- Hevs2.
      split; [|rewrite calls_app, sleeps_app, length_app, total_app; split; lia].
      unfold mbind, M_bind, mret, M_ret.
      now destruct (list_comp xs body (t ++ evs1)) as [[l|e] t2].
    + exists evs1. split; [reflexivity|]. split; [lia|]. nia.
Qed.

Lemma topk_run_bound self prefix logit_bias t :
  exists evs,
    (OpenAIModel_topk self prefix logit_bias t).2 = t ++ evs
    /\ (length (calls evs) <= Z.to_nat (max_api_retries self))%nat
    /\ total (sleeps evs)
       <= 5 * Z.of_nat (Z.to_nat (max_api_retries self))
          * (Z.of_nat (Z.to_nat (max_api_retries self)) + 1).
Proof.
  destruct (topk_run_shape self prefix logit_bias t)
    as (req & evs & Hevs & Hpre & Hcalls & _).
  exists evs. repeat split; try assumption.
  rewrite <- total_backoff, <- range_nat.
  apply total_prefix; [exact Hpre|apply backoff_nonneg].
Qed.

Lemma argmax_run_bound encoding_for_model self prefix logit_bias t :
  exists evs,
    (OpenAIModel_argmax encoding_for_model self prefix logit_bias t).2 = t ++ evs
    /\ (length (calls evs) <= 1)%nat /\ total (sleeps evs) <= 0.
Proof.
  destruct (encoding_for_model (model self)) as [enc|e] eqn:Henc.
  - rewrite (argmax_trace _ _ _ _ _ _ Henc). eexists. split; [reflexivity|].
    split; [simpl; lia|reflexivity].
  - rewrite (argmax_unknown_tokenizer _ _ _ _ _ _ Henc). exists [].
    rewrite app_nil_r. split; [reflexivity|]. split; [simpl; lia|reflexivity].
Qed.

(** X16.  Whatever the backend does, [median_topk] issues at most
    [k * max_api_retries] requests and sleeps at most [k] times the
    worst-case sleep of one [topk]; [median_argmax] issues at most [k]
    requests and does not sleep. *)
Theorem aggregates_are_bounded
    (encoding_for_model : string -> result Encoding) (self : OpenAIModel) (k : Z)
    (prefix : string) (logit_bias : option (option LogitBias)) (t : list event) :
  (exists evs,
      (median_topk (H := OpenAIModel_Model encoding_for_model)
         self k prefix logit_bias t).2 = t ++ evs
      /\ (length (calls evs) <= Z.to_nat k * Z.to_nat (max_api_retries self))%nat
      /\ total (sleeps evs)
         <= Z.of_nat (Z.to_nat k)
            * (5 * Z.of_nat (Z.to_nat (max_api_retries self))
               * (Z.of_nat (Z.to_nat (max_api_retries self)) + 1)))
  /\ (exists evs,
        (median_argmax (H := OpenAIModel_Model encoding_for_model)
           self k prefix logit_bias t).2 = t ++ evs
        /\ (length (calls evs) <= Z.to_nat k)%nat
        /\ total (sleeps evs) <= 0).
Proof.
  split.
  - destruct (list_comp_bound
                (fun _ : Z => OpenAIModel_topk self prefix logit_bias)
                (Z.to_nat (max_api_retries self))
                (5 * Z.of_nat (Z.to_nat (max_api_retries self))
                 * (Z.of_nat (Z.to_nat (max_api_retries self)) + 1))
                ltac:(nia)
                (fun _ t0 => topk_run_bound self prefix logit_bias t0)
                (range k) t) as (evs & Hevs & Hc & Hs).
    exists evs. rewrite range_length in Hc, Hs.
    split; [|split; assumption].
    unfold median_topk. rewrite bind_lift_trace. exact Hevs.
  - destruct (list_comp_bound
                (fun _ : Z => OpenAIModel_argmax encoding_for_model self prefix logit_bias)
                1%nat 0 ltac:(lia)
                (fun _ t0 => argmax_run_bound encoding_for_model self prefix logit_bias t0)
                (range k) t) as (evs & Hevs & Hc & Hs).
    exists evs. rewrite range_length in Hc, Hs.
    split; [|split; lia].
    unfold median_argmax. rewrite bind_lift_trace. exact Hevs.
Qed.
